(** * Military squad management (library/modules/Military.cpp)

    A shallow embedding of the three operations of the module,
    [getSquadName], [makeSquad] and [updateRoomAssignments], over an
    explicit model of the part of the host's object graph they touch. *)

From stdpp Require Import base numbers list strings sorting.

Local Open Scope string_scope.
Local Open Scope Z_scope.
Local Open Scope list_scope.

(** ** Machine integers *)

(** [int32_t] arithmetic: the value of [z] after it is stored in a signed
    32-bit cell (two's complement wrap-around). *)
Definition wrap32 (z : Z) : Z := (z + 2 ^ 31) `mod` 2 ^ 32 - 2 ^ 31.

Definition INT32_MAX : Z := 2 ^ 31 - 1.
Definition INT32_MIN : Z := - 2 ^ 31.

(** ** Data model *)

Inductive language_name_type := Squad | OtherNameType.
Inductive part_of_speech := Noun | OtherPartOfSpeech.

(** [df::language_name]: the fields [makeSquad] writes. *)
Record language_name := {
  ln_type : language_name_type;
  ln_words : list Z;
  ln_parts_of_speech : list part_of_speech
}.

(** [df::squad_position]: [flags.whole], the one field written here. *)
Record squad_position := { sp_flags_whole : Z }.

(** [df::squad_order_trainst], seen through [df::squad_order]. *)
Record squad_order := {
  year : Z;
  year_tick : Z;
  unk_v40_3 : Z
}.

(** [df::squad_schedule_order]; [positions] is a bit vector, one bit per
    squad position. *)
Record squad_schedule_order := {
  min_count : Z;
  so_positions : list bool;
  order : option squad_order
}.

(** [df::squad_schedule_entry]; [order_assignments] is a vector of pointers
    to separately allocated [int32_t] cells, kept here by value. *)
Record squad_schedule_entry := {
  sleep_mode : Z;
  uniform_mode : Z;
  orders : list squad_schedule_order;
  order_assignments : list Z
}.

(** [df::squad::T_rooms]; [mode] is a [df::squad_use_flags], kept as its
    [whole] word. *)
Record T_rooms := {
  building_id : Z;
  rooms_mode : Z
}.

Record squad := {
  sq_id : Z;
  sq_alias : string;
  sq_name : language_name;
  sq_cur_routine_idx : Z;
  sq_uniform_priority : Z;
  sq_activity : Z;
  sq_carry_food : Z;
  sq_carry_water : Z;
  sq_entity_id : Z;
  sq_leader_position : Z;
  sq_leader_assignment : Z;
  sq_ammo_update : Z;
  sq_positions : list squad_position;
  sq_schedule : list (list squad_schedule_entry);
  sq_rooms : list T_rooms
}.

(** [df::entity_position]; [squad_size] is an [int16_t]. *)
Record entity_position := {
  ep_id : Z;
  ep_squad_size : Z
}.

Record entity_position_assignment := {
  epa_id : Z;
  epa_position_id : Z;
  epa_squad_id : Z
}.

(** [df::historical_entity]: [positions.own], [positions.assignments] and
    [squads]. *)
Record historical_entity := {
  he_id : Z;
  he_positions_own : list entity_position;
  he_positions_assignments : list entity_position_assignment;
  he_squads : list Z
}.

(** An element of [plotinfo->alerts.routines]. *)
Record routine := { routine_name : string }.

Record plotinfost := {
  group_id : Z;
  alerts_routines : list routine
}.

(** [df::building_civzonest::T_squad_room_info]. *)
Record T_squad_room_info := {
  sri_squad_id : Z;
  sri_mode : Z
}.

(** [df::building] with its dynamic type: [strict_virtual_cast] to
    [df::building_civzonest] succeeds on the first constructor only. *)
Inductive building :=
  | building_civzonest (id : Z) (squad_room_info : list T_squad_room_info)
  | building_other (id : Z).

Definition building_get_id (b : building) : Z :=
  match b with
  | building_civzonest id _ => id
  | building_other id => id
  end.

(** [df::world]: [squads.all]. *)
Record world_t := { squads_all : list squad }.

(** The host state the module reads and writes.  The five [df::global]
    pointers may be null ([None]).  A vector of pointers is a list of the
    records pointed to, and a pointer into it is an index of the list. *)
Record State := {
  squad_next_id : option Z;
  plotinfo : option plotinfost;
  cur_year : option Z;
  cur_year_tick : option Z;
  world : option world_t;
  entities : list historical_entity;
  buildings : list building
}.

(** *** Field updates *)

Definition set_squad_next_id (v : Z) (st : State) : State :=
  {| squad_next_id := Some v; plotinfo := plotinfo st; cur_year := cur_year st;
     cur_year_tick := cur_year_tick st; world := world st;
     entities := entities st; buildings := buildings st |}.

Definition set_world (w : world_t) (st : State) : State :=
  {| squad_next_id := squad_next_id st; plotinfo := plotinfo st;
     cur_year := cur_year st; cur_year_tick := cur_year_tick st;
     world := Some w; entities := entities st; buildings := buildings st |}.

Definition set_entities (es : list historical_entity) (st : State) : State :=
  {| squad_next_id := squad_next_id st; plotinfo := plotinfo st;
     cur_year := cur_year st; cur_year_tick := cur_year_tick st;
     world := world st; entities := es; buildings := buildings st |}.

Definition set_buildings (bs : list building) (st : State) : State :=
  {| squad_next_id := squad_next_id st; plotinfo := plotinfo st;
     cur_year := cur_year st; cur_year_tick := cur_year_tick st;
     world := world st; entities := entities st; buildings := bs |}.

Definition set_he_squads (l : list Z) (e : historical_entity) : historical_entity :=
  {| he_id := he_id e; he_positions_own := he_positions_own e;
     he_positions_assignments := he_positions_assignments e; he_squads := l |}.

Definition set_he_assignments (l : list entity_position_assignment)
    (e : historical_entity) : historical_entity :=
  {| he_id := he_id e; he_positions_own := he_positions_own e;
     he_positions_assignments := l; he_squads := he_squads e |}.

Definition set_epa_squad_id (v : Z) (a : entity_position_assignment) :
    entity_position_assignment :=
  {| epa_id := epa_id a; epa_position_id := epa_position_id a; epa_squad_id := v |}.

Definition set_sleep_mode (v : Z) (e : squad_schedule_entry) : squad_schedule_entry :=
  {| sleep_mode := v; uniform_mode := uniform_mode e; orders := orders e;
     order_assignments := order_assignments e |}.

Definition set_uniform_mode (v : Z) (e : squad_schedule_entry) : squad_schedule_entry :=
  {| sleep_mode := sleep_mode e; uniform_mode := v; orders := orders e;
     order_assignments := order_assignments e |}.

Definition set_orders (l : list squad_schedule_order) (e : squad_schedule_entry) :
    squad_schedule_entry :=
  {| sleep_mode := sleep_mode e; uniform_mode := uniform_mode e; orders := l;
     order_assignments := order_assignments e |}.

Definition set_order_assignments (l : list Z) (e : squad_schedule_entry) :
    squad_schedule_entry :=
  {| sleep_mode := sleep_mode e; uniform_mode := uniform_mode e; orders := orders e;
     order_assignments := l |}.

Definition set_sq_rooms (l : list T_rooms) (s : squad) : squad :=
  {| sq_id := sq_id s; sq_alias := sq_alias s; sq_name := sq_name s;
     sq_cur_routine_idx := sq_cur_routine_idx s;
     sq_uniform_priority := sq_uniform_priority s; sq_activity := sq_activity s;
     sq_carry_food := sq_carry_food s; sq_carry_water := sq_carry_water s;
     sq_entity_id := sq_entity_id s; sq_leader_position := sq_leader_position s;
     sq_leader_assignment := sq_leader_assignment s;
     sq_ammo_update := sq_ammo_update s; sq_positions := sq_positions s;
     sq_schedule := sq_schedule s; sq_rooms := l |}.

Definition set_rooms_mode (v : Z) (r : T_rooms) : T_rooms :=
  {| building_id := building_id r; rooms_mode := v |}.

Definition set_sri_mode (v : Z) (r : T_squad_room_info) : T_squad_room_info :=
  {| sri_squad_id := sri_squad_id r; sri_mode := v |}.

(** ** Outcomes *)

(** What stops a call short of returning: a null pointer is dereferenced, or
    [std::vector::resize] is asked for more than [max_size()] elements and
    throws [std::length_error]. *)
Inductive fault := NullDereference | LengthError.

(** A call either returns a value in a state, or stops with a fault in the
    state it had reached at that point. *)
Inductive outcome (A : Type) :=
  | Returned (a : A) (st : State)
  | Faulted (f : fault) (st : State).
Arguments Returned {A} a st.
Arguments Faulted {A} f st.

(** Construction before the commit reads the state and writes none of it. *)
Definition build (A : Type) : Type := fault + A.

Definition build_bind {A B} (m : build A) (k : A → build B) : build B :=
  match m with
  | inl f => inl f
  | inr a => k a
  end.

Notation "x ←! m ; k" := (build_bind m (λ x, k))
  (at level 20, m at level 100, k at level 200, right associativity,
   format "x  ←!  m ;  '/' k").

(** [for (int i = 0; i < n; i++) body(i)] over a loop state [s]. *)
Fixpoint for_range {S : Type} (n : nat) (body : nat → S → S) (s : S) : S :=
  match n with
  | O => s
  | Datatypes.S k => body k (for_range k body s)
  end.

(** [for (int index : indices) body(index)], where the body may fault. *)
Fixpoint for_each {S : Type} (indices : list nat) (body : nat → S → build S)
    (s : S) : build S :=
  match indices with
  | [] => inr s
  | i :: rest => s' ←! body i s; for_each rest body s'
  end.

(** ** Lookup accessors of the host *)

(** Modelled from the spec: [df::historical_entity::find], declared in
    df/historical_entity.h, which is not part of the module.  The spec asks
    of it a lookup by id; the result is the entity and where it lives. *)
Definition historical_entity_find (id : Z) (st : State) :
    option (nat * historical_entity) :=
  list_find (λ e, he_id e = id) (entities st).

(** Modelled from the spec: [df::squad::find], declared in df/squad.h, a
    lookup by id in the squad registry [world->squads.all]. *)
Definition squad_find (id : Z) (st : State) : option (nat * squad) :=
  w ← world st; list_find (λ s, sq_id s = id) (squads_all w).

(** Modelled from the spec: [df::building::find], declared in df/building.h,
    a lookup by id among the buildings. *)
Definition building_find (id : Z) (st : State) : option (nat * building) :=
  list_find (λ b, building_get_id b = id) (buildings st).

(** ** [Military::getSquadName] *)

Section GetSquadName.

(** [Translation::TranslateName], the host's name-translation service. *)
Variable TranslateName : language_name → bool → string.

(** The call reads the state and hands it back as it found it; the
    second component is the state after the call. *)
Definition getSquadName (squad_id : Z) (st : State) : string * State :=
  match squad_find squad_id st with
  | None => ("", st)
  | Some (_, squad) =>
      if decide (0 < String.length (sq_alias squad))%nat
      then (sq_alias squad, st)
      else (TranslateName (sq_name squad) true, st)
  end.

End GetSquadName.

(** ** [Military::makeSquad] *)

(** [df::language_name name;]: two arrays of 7 slots.  Whatever the
    constructor leaves in them, the loop below overwrites every slot. *)
Definition new_language_name : language_name :=
  {| ln_type := OtherNameType;
     ln_words := replicate 7 0;
     ln_parts_of_speech := replicate 7 OtherPartOfSpeech |}.

(** Lines 42-49: the name of the new squad. *)
Definition squad_name : language_name :=
  for_range 7
    (λ i name,
       {| ln_type := ln_type name;
          ln_words := <[i := -1]> (ln_words name);
          ln_parts_of_speech := <[i := Noun]> (ln_parts_of_speech name) |})
    {| ln_type := Squad;
       ln_words := ln_words new_language_name;
       ln_parts_of_speech := ln_parts_of_speech new_language_name |}.

(** Modelled from the spec: the constructor of [df::squad_schedule_entry],
    declared in df/squad_schedule_entry.h, which is not part of the module:
    sleep-mode 0, uniform-mode 0, no orders, no assignment cells. *)
Definition new_squad_schedule_entry : squad_schedule_entry :=
  {| sleep_mode := 0; uniform_mode := 0; orders := []; order_assignments := [] |}.

(** Lines 100-107: one [squad_position] per iteration. *)
Definition make_positions (squad_size : Z) : list squad_position :=
  for_range (Z.to_nat squad_size)
    (λ _ positions, positions ++ [ {| sp_flags_whole := 0 |} ]) [].

(** Lines 113-126: the 12 entries of one routine, each with one cell of
    value -1 per position. *)
Definition allocate_asched (squad_size : Z) : list squad_schedule_entry :=
  for_range 12
    (λ _ asched,
       asched ++
       [ for_range (Z.to_nat squad_size)
           (λ _ e, set_order_assignments (order_assignments e ++ [-1]) e)
           new_squad_schedule_entry ])
    [].

(** Lines 128-146: the lambda [insert_training_order].  [squad_size] is an
    [int16_t] converted to the unsigned [size_type] of [resize]: a negative
    one becomes a size above [max_size()] and [resize] throws.  The globals
    [cur_year] and [cur_year_tick] are dereferenced without a check. *)
Definition insert_training_order (st : State) (squad_size : Z) (month : nat)
    (asched : list squad_schedule_entry) : build (list squad_schedule_entry) :=
  if decide (squad_size < 0) then inl LengthError else
  match cur_year st with
  | None => inl NullDereference
  | Some y =>
    match cur_year_tick st with
    | None => inl NullDereference
    | Some t =>
        let s_order := {| year := y; year_tick := t; unk_v40_3 := -1 |} in
        let order :=
          {| min_count := squad_size;
             so_positions := replicate (Z.to_nat squad_size) false;
             order := Some s_order |} in
        inr (alter (λ e, set_uniform_mode 0 (set_orders (orders e ++ [order]) e))
               month asched)
    end
  end.

(** The body shared by the two training branches: attach the order, then
    [asched[index].sleep_mode = 0]. *)
Definition train_month (st : State) (squad_size : Z) (index : nat)
    (asched : list squad_schedule_entry) : build (list squad_schedule_entry) :=
  asched' ←! insert_training_order st squad_size index asched;
  inr (alter (set_sleep_mode 0) index asched').

(** The body of the three branches that only set the two modes. *)
Definition set_modes (sleep uniform : Z) (i : nat)
    (asched : list squad_schedule_entry) : list squad_schedule_entry :=
  alter (λ e, set_uniform_mode uniform (set_sleep_mode sleep e)) i asched.

(** Lines 150-209: the dispatch on the routine's name.  [next_id] is
    [*df::global::squad_next_id], not yet incremented. *)
Definition fill_asched (st : State) (next_id squad_size : Z) (name : string)
    (asched : list squad_schedule_entry) : build (list squad_schedule_entry) :=
  if decide (name = "Off duty") then
    inr (for_range 12 (set_modes 0 1) asched)
  else if decide (name = "Staggered training") then
    let indices : list nat :=
      if decide (Z.land next_id 1 ≠ 0)
      then [3; 4; 5; 9; 10; 11]%nat
      else [0; 1; 2; 6; 7; 8]%nat in
    for_each indices (train_month st squad_size) asched
  else if decide (name = "Constant training") then
    for_each (seq 0 12) (train_month st squad_size) asched
  else if decide (name = "Ready") then
    inr (for_range 12 (set_modes 2 0) asched)
  else
    inr (for_range 12 (set_modes 0 0) asched).

(** Lines 111-212: one 12-entry block per routine, pushed in order. *)
Fixpoint make_schedule (st : State) (next_id squad_size : Z)
    (routines : list routine) (schedule : list (list squad_schedule_entry)) :
    build (list (list squad_schedule_entry)) :=
  match routines with
  | [] => inr schedule
  | r :: rest =>
      asched ←! fill_asched st next_id squad_size (routine_name r)
                  (allocate_asched squad_size);
      make_schedule st next_id squad_size rest (schedule ++ [asched])
  end.

(** Lines 85-107: the squad before its schedule is filled in.  The fields
    not assigned keep what [new df::squad()] gives them: no alias, no
    rooms. *)
Definition new_squad (next_id : Z) (pi : plotinfost)
    (corresponding_position : entity_position)
    (found_assignment : entity_position_assignment)
    (schedule : list (list squad_schedule_entry)) : squad :=
  {| sq_id := next_id;
     sq_alias := "";
     sq_name := squad_name;
     sq_cur_routine_idx := 0;
     sq_uniform_priority := wrap32 (next_id + 1);
     sq_activity := -1;
     sq_carry_food := 2;
     sq_carry_water := 1;
     sq_entity_id := group_id pi;
     sq_leader_position := ep_id corresponding_position;
     sq_leader_assignment := epa_id found_assignment;
     sq_ammo_update := 0;
     sq_positions := make_positions (ep_squad_size corresponding_position);
     sq_schedule := schedule;
     sq_rooms := [] |}.

(** *** The four steps of the commit (lines 216-219) *)

(** The post-increment of [*df::global::squad_next_id]. *)
Definition increment_squad_next_id (next_id : Z) (st : State) : State :=
  set_squad_next_id (wrap32 (next_id + 1)) st.

(** [fort->squads.push_back(result->id)]; [fort] is entity number [fi]. *)
Definition push_fort_squad (fi : nat) (id : Z) (st : State) : State :=
  set_entities
    (alter (λ fort, set_he_squads (he_squads fort ++ [id]) fort) fi (entities st)) st.

(** [df::global::world->squads.all.push_back(result)], on a world [w]. *)
Definition push_world_squad (w : world_t) (result : squad) (st : State) : State :=
  set_world {| squads_all := squads_all w ++ [result] |} st.

(** [found_assignment->squad_id = result->id]; the assignment is number
    [ai] of entity number [fi]. *)
Definition bind_assignment (fi ai : nat) (id : Z) (st : State) : State :=
  set_entities
    (alter
       (λ fort,
          set_he_assignments
            (alter (set_epa_squad_id id) ai (he_positions_assignments fort)) fort)
       fi (entities st)) st.

Definition commit (fi ai : nat) (next_id : Z) (result : squad) (st : State) :
    outcome (option squad) :=
  let st1 := increment_squad_next_id next_id st in
  let st2 := push_fort_squad fi (sq_id result) st1 in
  match world st2 with
  | None => Faulted NullDereference st2
  | Some w =>
      let st3 := push_world_squad w result st2 in
      let st4 := bind_assignment fi ai (sq_id result) st3 in
      Returned (Some result) st4
  end.

Definition makeSquad (assignment_id : Z) (st : State) : outcome (option squad) :=
  match squad_next_id st, plotinfo st with
  | Some next_id, Some pi =>
    match historical_entity_find (group_id pi) st with
    | None => Faulted NullDereference st
    | Some (fi, fort) =>
      match list_find (λ a, epa_id a = assignment_id)
              (he_positions_assignments fort) with
      | None => Returned None st
      | Some (ai, found_assignment) =>
        if decide (epa_squad_id found_assignment ≠ -1) then Returned None st else
        match list_find (λ p, ep_id p = epa_position_id found_assignment)
                (he_positions_own fort) with
        | None => Returned None st
        | Some (_, corresponding_position) =>
          let squad_size := ep_squad_size corresponding_position in
          match make_schedule st next_id squad_size (alerts_routines pi) [] with
          | inl f => Faulted f st
          | inr schedule =>
              let result :=
                new_squad next_id pi corresponding_position found_assignment
                  schedule in
              commit fi ai next_id result st
          end
        end
      end
    end
  | _, _ => Returned None st
  end.

(** ** [Military::updateRoomAssignments] *)

(** The order of the two comparators, [a->key < b->key]: in a sorted vector
    no record is followed by one with a smaller key. *)
Definition key_le {A : Type} (key : A → Z) : relation A := λ a b, key a ≤ key b.

Global Instance key_le_dec {A : Type} (key : A → Z) (a b : A) :
  Decision (key_le key a b) := Z.le_dec (key a) (key b).

Global Instance key_le_total {A : Type} (key : A → Z) : Total (key_le key) :=
  λ a b, Z.le_ge_cases (key a) (key b).

(** [std::sort] with such a comparator: the standard fixes the result up to
    the order of records with equal keys, so the model takes the algorithm
    as a parameter together with what the standard promises of it: the
    result is a rearrangement of the input, and it is sorted. *)
Record sort_algorithm := {
  std_sort : ∀ A : Type, (A → Z) → list A → list A;
  std_sort_permutation :
    ∀ (A : Type) (key : A → Z) (l : list A), std_sort A key l ≡ₚ l;
  std_sort_sorted :
    ∀ (A : Type) (key : A → Z) (l : list A),
      Sorted (key_le key) (std_sort A key l)
}.

(** [strict_virtual_cast<df::building_civzonest>(bzone)]: null for a null
    pointer and for a building of any other class. *)
Definition strict_virtual_cast_civzonest (bzone : option (nat * building)) :
    option (nat * Z * list T_squad_room_info) :=
  match bzone with
  | Some (bi, building_civzonest id squad_room_info) => Some (bi, id, squad_room_info)
  | _ => None
  end.

(** The two search loops (lines 239-255): a pointer to the first record with
    the key, as its position in the vector. *)
Definition find_room (civzone_id : Z) (rooms : list T_rooms) : option nat :=
  fst <$> list_find (λ room, building_id room = civzone_id) rooms.

Definition find_room_info (squad_id : Z) (squad_room_info : list T_squad_room_info) :
    option nat :=
  fst <$> list_find (λ room, sri_squad_id room = squad_id) squad_room_info.

(** Lines 288-296: [for (i = 0; i < size; i++)]; a match is erased and [i]
    stepped back, so the next round looks at position [i] again.  Every
    round either shortens the vector or advances [i]: [size - i] rounds
    suffice, and [fuel] counts them. *)
Fixpoint erase_rooms_loop (fuel : nat) (civzone_id : Z) (i : nat)
    (rooms : list T_rooms) : list T_rooms :=
  match fuel with
  | O => rooms
  | S fuel' =>
      match rooms !! i with
      | None => rooms
      | Some room =>
          if decide (building_id room = civzone_id)
          then erase_rooms_loop fuel' civzone_id i (delete i rooms)
          else erase_rooms_loop fuel' civzone_id (S i) rooms
      end
  end.

Definition erase_rooms (civzone_id : Z) (rooms : list T_rooms) : list T_rooms :=
  erase_rooms_loop (length rooms) civzone_id 0 rooms.

(** Writing through the pointers [squad] and [zone]: squad number [si] of
    the registry, building number [bi]. *)
Definition store_squad_rooms (si : nat) (rooms : list T_rooms) (st : State) : State :=
  match world st with
  | None => st
  | Some w =>
      set_world
        {| squads_all := alter (set_sq_rooms rooms) si (squads_all w) |} st
  end.

Definition store_zone_info (bi : nat) (id : Z) (info : list T_squad_room_info)
    (st : State) : State :=
  set_buildings (<[bi := building_civzonest id info]> (buildings st)) st.

Section UpdateRoomAssignments.

Variable alg : sort_algorithm.

(** Lines 263-270.  The result is the vector and the pointer
    [room_from_squad].  The sort moves the pointers of the vector around,
    not the records: the pointer to the fresh record stays good, and the
    record is then found where the sort put it.  It is the only record of
    the vector with building id [civzone_id], since the search found none,
    so its position is that of the first record with that id.  [mode] is
    zero-initialised by [new] and written at line 282. *)
Definition ensure_room_from_squad (civzone_id : Z) (avoiding_squad_roundtrip : bool)
    (rooms : list T_rooms) (room_from_squad : option nat) :
    list T_rooms * option nat :=
  if decide (avoiding_squad_roundtrip = false ∧ room_from_squad = None) then
    let fresh := {| building_id := civzone_id; rooms_mode := 0 |} in
    let rooms' := std_sort alg T_rooms building_id (rooms ++ [fresh]) in
    (rooms', find_room civzone_id rooms')
  else (rooms, room_from_squad).

(** Lines 272-279, likewise for the zone's vector. *)
Definition ensure_room_from_building (squad_id : Z)
    (squad_room_info : list T_squad_room_info) (room_from_building : option nat) :
    list T_squad_room_info * option nat :=
  if decide (room_from_building = None) then
    let fresh := {| sri_squad_id := squad_id; sri_mode := 0 |} in
    let info' :=
      std_sort alg T_squad_room_info sri_squad_id (squad_room_info ++ [fresh]) in
    (info', find_room_info squad_id info')
  else (squad_room_info, room_from_building).

(** [p->mode = flags] through a pointer [p] that may be null. *)
Definition assign_rooms_mode (flags : Z) (p : option nat) (rooms : list T_rooms) :
    list T_rooms :=
  match p with
  | Some i => alter (set_rooms_mode flags) i rooms
  | None => rooms
  end.

Definition assign_info_mode (flags : Z) (p : option nat)
    (info : list T_squad_room_info) : list T_squad_room_info :=
  match p with
  | Some i => alter (set_sri_mode flags) i info
  | None => info
  end.

Definition updateRoomAssignments (squad_id civzone_id flags : Z) (st : State) :
    State :=
  match squad_find squad_id st,
        strict_virtual_cast_civzonest (building_find civzone_id st) with
  | Some (si, squad), Some (bi, zone_id, squad_room_info) =>
      let room_from_squad := find_room civzone_id (sq_rooms squad) in
      let room_from_building := find_room_info squad_id squad_room_info in
      if decide (flags = 0 ∧ room_from_squad = None ∧ room_from_building = None)
      then st
      else
        let avoiding_squad_roundtrip :=
          bool_decide (flags = 0 ∧ room_from_squad = None) in
        let '(rooms1, room_from_squad1) :=
          ensure_room_from_squad civzone_id avoiding_squad_roundtrip
            (sq_rooms squad) room_from_squad in
        let '(info1, room_from_building1) :=
          ensure_room_from_building squad_id squad_room_info room_from_building in
        let rooms2 := assign_rooms_mode flags room_from_squad1 rooms1 in
        let info2 := assign_info_mode flags room_from_building1 info1 in
        let rooms3 :=
          if decide (flags = 0 ∧ avoiding_squad_roundtrip = false)
          then erase_rooms civzone_id rooms2
          else rooms2 in
        store_zone_info bi zone_id info2 (store_squad_rooms si rooms3 st)
  | _, _ => st
  end.

End UpdateRoomAssignments.

(** *** A sorting algorithm to run the model with *)

Definition merge_sort_by (A : Type) (key : A → Z) (l : list A) : list A :=
  merge_sort (key_le key) l.

Definition merge_sort_algorithm : sort_algorithm :=
  {| std_sort := merge_sort_by;
     std_sort_permutation :=
       λ A key l, merge_sort_Permutation (key_le key) l;
     std_sort_sorted :=
       λ A key l, Sorted_merge_sort (key_le key) l |}.

(** * Vocabulary of the properties *)

(** ** Schedule blocks *)

(** The entry a routine's block starts from in each of its 12 slots. *)
Definition blank_entry (squad_size : Z) : squad_schedule_entry :=
  {| sleep_mode := 0; uniform_mode := 0; orders := [];
     order_assignments := replicate (Z.to_nat squad_size) (-1) |}.

(** The order [insert_training_order] attaches when it gets through. *)
Definition training_order (squad_size y t : Z) : squad_schedule_order :=
  {| min_count := squad_size;
     so_positions := replicate (Z.to_nat squad_size) false;
     order := Some {| year := y; year_tick := t; unk_v40_3 := -1 |} |}.

(** An entry after [insert_training_order] and [sleep_mode = 0]. *)
Definition trained (squad_size y t : Z) (e : squad_schedule_entry) :
    squad_schedule_entry :=
  set_sleep_mode 0
    (set_uniform_mode 0 (set_orders (orders e ++ [training_order squad_size y t]) e)).

(** The months a staggered routine trains in, as the spec words it: by the
    parity of the counter. *)
Definition staggered_months (next_id : Z) : list nat :=
  if Z.odd next_id then [3; 4; 5; 9; 10; 11]%nat else [0; 1; 2; 6; 7; 8]%nat.

(** A routine attaches training orders when it has one of these names. *)
Definition training_name (name : string) : Prop :=
  name = "Staggered training" ∨ name = "Constant training".

Global Instance training_name_dec name : Decision (training_name name).
Proof. unfold training_name. apply _. Defined.

(** ** What a call of [makeSquad] finds *)

(** What the checks of lines 39-83 resolve before the squad is built. *)
Record resolution := {
  res_next_id : Z;
  res_plotinfo : plotinfost;
  res_fort_index : nat;
  res_fort : historical_entity;
  res_assignment_index : nat;
  res_assignment : entity_position_assignment;
  res_position : entity_position
}.

(** All four preconditions hold, and [r] is what the searches found. *)
Definition resolves (assignment_id : Z) (st : State) (r : resolution) : Prop :=
  squad_next_id st = Some (res_next_id r) ∧
  plotinfo st = Some (res_plotinfo r) ∧
  historical_entity_find (group_id (res_plotinfo r)) st
    = Some (res_fort_index r, res_fort r) ∧
  list_find (λ a, epa_id a = assignment_id)
    (he_positions_assignments (res_fort r))
    = Some (res_assignment_index r, res_assignment r) ∧
  epa_squad_id (res_assignment r) = -1 ∧
  ∃ pj, list_find (λ p, ep_id p = epa_position_id (res_assignment r))
          (he_positions_own (res_fort r))
        = Some (pj, res_position r).

Definition res_squad_size (r : resolution) : Z := ep_squad_size (res_position r).

(** The squad a resolved call builds around a schedule. *)
Definition res_squad (r : resolution)
    (schedule : list (list squad_schedule_entry)) : squad :=
  new_squad (res_next_id r) (res_plotinfo r) (res_position r) (res_assignment r)
    schedule.

Definition res_schedule (st : State) (r : resolution) :
    build (list (list squad_schedule_entry)) :=
  make_schedule st (res_next_id r) (res_squad_size r)
    (alerts_routines (res_plotinfo r)) [].

(** ** Example states *)

Definition example_fort (squad_size bound_squad : Z) : historical_entity :=
  {| he_id := 7;
     he_positions_own :=
       [ {| ep_id := 2; ep_squad_size := 10 |};
         {| ep_id := 3; ep_squad_size := squad_size |} ];
     he_positions_assignments :=
       [ {| epa_id := 10; epa_position_id := 2; epa_squad_id := 40 |};
         {| epa_id := 11; epa_position_id := 3; epa_squad_id := bound_squad |};
         {| epa_id := 12; epa_position_id := 9; epa_squad_id := -1 |} ];
     he_squads := [40] |}.

Definition example_squad (id : Z) (alias : string) (rooms : list T_rooms) : squad :=
  {| sq_id := id; sq_alias := alias; sq_name := squad_name;
     sq_cur_routine_idx := 0; sq_uniform_priority := wrap32 (id + 1);
     sq_activity := -1; sq_carry_food := 2; sq_carry_water := 1;
     sq_entity_id := 7; sq_leader_position := 2; sq_leader_assignment := 10;
     sq_ammo_update := 0; sq_positions := []; sq_schedule := [];
     sq_rooms := rooms |}.

Definition example_routines : list routine :=
  [ {| routine_name := "Off duty" |};
    {| routine_name := "Staggered training" |};
    {| routine_name := "Constant training" |};
    {| routine_name := "Ready" |};
    {| routine_name := "Patrol" |} ].

(** A fort with one squad, number 40, and a free assignment, number 11, to a
    position with [squad_size] members; the counter stands at [next_id]. *)
Definition example_state (next_id squad_size : Z) (routines : list routine) : State :=
  {| squad_next_id := Some next_id;
     plotinfo := Some {| group_id := 7; alerts_routines := routines |};
     cur_year := Some 250;
     cur_year_tick := Some 1200;
     world := Some {| squads_all := [example_squad 40 "" []] |};
     entities := [ {| he_id := 1; he_positions_own := [];
                      he_positions_assignments := []; he_squads := [] |};
                   example_fort squad_size (-1) ];
     buildings := [] |}.

(** ** Failing preconditions of [makeSquad] *)

(** The ways a precondition of [makeSquad] fails, the settlement entity
    being there in the last three. *)
Inductive precondition_fails (assignment_id : Z) (st : State) : Prop :=
  | no_squad_next_id :
      squad_next_id st = None → precondition_fails assignment_id st
  | no_plotinfo :
      plotinfo st = None → precondition_fails assignment_id st
  | unknown_assignment next_id pi fi fort :
      squad_next_id st = Some next_id → plotinfo st = Some pi →
      historical_entity_find (group_id pi) st = Some (fi, fort) →
      (∀ a, a ∈ he_positions_assignments fort → epa_id a ≠ assignment_id) →
      precondition_fails assignment_id st
  | assignment_bound next_id pi fi fort ai a :
      squad_next_id st = Some next_id → plotinfo st = Some pi →
      historical_entity_find (group_id pi) st = Some (fi, fort) →
      list_find (λ a, epa_id a = assignment_id) (he_positions_assignments fort)
        = Some (ai, a) →
      epa_squad_id a ≠ -1 →
      precondition_fails assignment_id st
  | unknown_position next_id pi fi fort ai a :
      squad_next_id st = Some next_id → plotinfo st = Some pi →
      historical_entity_find (group_id pi) st = Some (fi, fort) →
      list_find (λ a, epa_id a = assignment_id) (he_positions_assignments fort)
        = Some (ai, a) →
      (∀ p, p ∈ he_positions_own fort → ep_id p ≠ epa_position_id a) →
      precondition_fails assignment_id st.

Definition example_state_without_counter : State :=
  {| squad_next_id := None;
     plotinfo := plotinfo (example_state 5 3 example_routines);
     cur_year := Some 250; cur_year_tick := Some 1200;
     world := world (example_state 5 3 example_routines);
     entities := entities (example_state 5 3 example_routines);
     buildings := [] |}.

Definition example_state_without_plotinfo : State :=
  {| squad_next_id := Some 5;
     plotinfo := None;
     cur_year := Some 250; cur_year_tick := Some 1200;
     world := world (example_state 5 3 example_routines);
     entities := entities (example_state 5 3 example_routines);
     buildings := [] |}.

(** ** Null pointers [makeSquad] does not test for *)

(** The ways [makeSquad] meets a null pointer it does not test for: the
    settlement entity; the clock, when a routine attaches a training order;
    the world, at the commit. *)
Inductive unguarded_null (assignment_id : Z) (st : State) : Prop :=
  | null_fort next_id pi :
      squad_next_id st = Some next_id → plotinfo st = Some pi →
      historical_entity_find (group_id pi) st = None →
      unguarded_null assignment_id st
  | null_clock r rt :
      resolves assignment_id st r →
      0 ≤ res_squad_size r →
      rt ∈ alerts_routines (res_plotinfo r) →
      training_name (routine_name rt) →
      cur_year st = None ∨ cur_year_tick st = None →
      unguarded_null assignment_id st
  | null_world r schedule :
      resolves assignment_id st r →
      res_schedule st r = inr schedule →
      world st = None →
      unguarded_null assignment_id st.

Definition example_state_without_fort : State :=
  {| squad_next_id := Some 5;
     plotinfo := Some {| group_id := 8; alerts_routines := example_routines |};
     cur_year := Some 250; cur_year_tick := Some 1200;
     world := world (example_state 5 3 example_routines);
     entities := entities (example_state 5 3 example_routines);
     buildings := [] |}.

Definition example_state_without_clock : State :=
  {| squad_next_id := Some 5;
     plotinfo := plotinfo (example_state 5 3 example_routines);
     cur_year := Some 250; cur_year_tick := None;
     world := world (example_state 5 3 example_routines);
     entities := entities (example_state 5 3 example_routines);
     buildings := [] |}.

Definition example_state_without_world : State :=
  {| squad_next_id := Some 5;
     plotinfo := plotinfo (example_state 5 3 example_routines);
     cur_year := Some 250; cur_year_tick := Some 1200;
     world := None;
     entities := entities (example_state 5 3 example_routines);
     buildings := [] |}.

Definition example_resolution : resolution :=
  {| res_next_id := 5;
     res_plotinfo := {| group_id := 7; alerts_routines := example_routines |};
     res_fort_index := 1;
     res_fort := example_fort 3 (-1);
     res_assignment_index := 1;
     res_assignment := {| epa_id := 11; epa_position_id := 3; epa_squad_id := -1 |};
     res_position := {| ep_id := 3; ep_squad_size := 3 |} |}.

(** ** Training slots *)

(** A slot with a training order attached, as [insert_training_order]
    leaves it: one order, for at least [squad_size] members, with one
    position bit each, stamped with the clock of [st], its reserved field
    -1; and the slot's uniform-mode is 0. *)
Definition training_slot (st : State) (squad_size : Z) (e : squad_schedule_entry) :
    Prop :=
  ∃ o y t,
    orders e = [o] ∧
    min_count o = squad_size ∧
    Z.of_nat (length (so_positions o)) = squad_size ∧
    cur_year st = Some y ∧ cur_year_tick st = Some t ∧
    order o = Some {| year := y; year_tick := t; unk_v40_3 := -1 |} ∧
    uniform_mode e = 0.

(** ** More example states *)

Definition example_translate (name : language_name) (in_english : bool) : string :=
  "The Squad".

Definition example_registry : State :=
  {| squad_next_id := Some 43;
     plotinfo := Some {| group_id := 7; alerts_routines := example_routines |};
     cur_year := Some 250;
     cur_year_tick := Some 1200;
     world := Some {| squads_all :=
                        [ example_squad 40 "" [];
                          example_squad 41 "Axe lords" [];
                          example_squad 42 ""
                            [ {| building_id := 7; rooms_mode := 1 |};
                              {| building_id := 4; rooms_mode := 1 |} ] ] |};
     entities := [];
     buildings :=
       [ building_civzonest 4
           [ {| sri_squad_id := 41; sri_mode := 1 |};
             {| sri_squad_id := 42; sri_mode := 1 |} ];
         building_other 5;
         building_civzonest 6 [];
         building_civzonest 7 [ {| sri_squad_id := 40; sri_mode := 1 |} ] ] |}.

(** ** The two vectors of [updateRoomAssignments] *)

(** What lines 261-297 make of the squad's vector. *)
Definition rooms_sync (alg : sort_algorithm) (civzone_id flags : Z)
    (rooms : list T_rooms) : list T_rooms :=
  let room_from_squad := find_room civzone_id rooms in
  let avoiding_squad_roundtrip :=
    bool_decide (flags = 0 ∧ room_from_squad = None) in
  let created :=
    ensure_room_from_squad alg civzone_id avoiding_squad_roundtrip rooms
      room_from_squad in
  let rooms2 := assign_rooms_mode flags created.2 created.1 in
  if decide (flags = 0 ∧ avoiding_squad_roundtrip = false)
  then erase_rooms civzone_id rooms2
  else rooms2.

(** What they make of the zone's vector. *)
Definition info_sync (alg : sort_algorithm) (squad_id flags : Z)
    (squad_room_info : list T_squad_room_info) : list T_squad_room_info :=
  let created :=
    ensure_room_from_building alg squad_id squad_room_info
      (find_room_info squad_id squad_room_info) in
  assign_info_mode flags created.2 created.1.

(** ** Calls of [updateRoomAssignments] with nothing to do *)

(** The calls that find nothing to write. *)
Inductive nothing_to_update (squad_id civzone_id flags : Z) (st : State) : Prop :=
  | unknown_squad :
      squad_find squad_id st = None →
      nothing_to_update squad_id civzone_id flags st
  | unknown_building :
      building_find civzone_id st = None →
      nothing_to_update squad_id civzone_id flags st
  | not_a_civzone bi id :
      building_find civzone_id st = Some (bi, building_other id) →
      nothing_to_update squad_id civzone_id flags st
  | no_association si squad bi zone_id info :
      flags = 0 →
      squad_find squad_id st = Some (si, squad) →
      strict_virtual_cast_civzonest (building_find civzone_id st)
        = Some (bi, zone_id, info) →
      (∀ room, room ∈ sq_rooms squad → building_id room ≠ civzone_id) →
      (∀ room, room ∈ info → sri_squad_id room ≠ squad_id) →
      nothing_to_update squad_id civzone_id flags st.

(** ** After a call of [makeSquad] *)

(** The settlement entity as the commit leaves it: the id pushed on
    [squads], the assignment bound. *)
Definition fort_after (r : resolution) (id : Z) : historical_entity :=
  set_he_assignments
    (alter (set_epa_squad_id id) (res_assignment_index r)
       (he_positions_assignments (res_fort r)))
    (set_he_squads (he_squads (res_fort r) ++ [id]) (res_fort r)).

(** What the same call resolves when the state is the one a first call
    left, in the one case in which it resolves again. *)
Definition resolution_after (r : resolution) (id : Z) : resolution :=
  {| res_next_id := wrap32 (res_next_id r + 1);
     res_plotinfo := res_plotinfo r;
     res_fort_index := res_fort_index r;
     res_fort := fort_after r id;
     res_assignment_index := res_assignment_index r;
     res_assignment := set_epa_squad_id id (res_assignment r);
     res_position := res_position r |}.

(** A fort with two free assignments, 11 and 13. *)
Definition example_fort_two_free : historical_entity :=
  {| he_id := 7;
     he_positions_own :=
       [ {| ep_id := 2; ep_squad_size := 10 |};
         {| ep_id := 3; ep_squad_size := 3 |} ];
     he_positions_assignments :=
       [ {| epa_id := 11; epa_position_id := 3; epa_squad_id := -1 |};
         {| epa_id := 13; epa_position_id := 2; epa_squad_id := -1 |} ];
     he_squads := [] |}.

Definition example_state_two_free : State :=
  {| squad_next_id := Some 5;
     plotinfo := Some {| group_id := 7; alerts_routines := example_routines |};
     cur_year := Some 250;
     cur_year_tick := Some 1200;
     world := Some {| squads_all := [] |};
     entities := [ example_fort_two_free ];
     buildings := [] |}.

(** A registry in which every vector is sorted: squad 40 has a room in
    zone 7 the zone knows nothing of; squad 42 has rooms in zones 4 and 7. *)
Definition example_sorted_registry : State :=
  {| squad_next_id := Some 43;
     plotinfo := Some {| group_id := 7; alerts_routines := example_routines |};
     cur_year := Some 250;
     cur_year_tick := Some 1200;
     world := Some {| squads_all :=
                        [ example_squad 40 "" [ {| building_id := 7; rooms_mode := 1 |} ];
                          example_squad 41 "Axe lords"
                            [ {| building_id := 4; rooms_mode := 1 |};
                              {| building_id := 6; rooms_mode := 2 |} ];
                          example_squad 42 ""
                            [ {| building_id := 4; rooms_mode := 1 |};
                              {| building_id := 7; rooms_mode := 1 |} ] ] |};
     entities := [];
     buildings :=
       [ building_civzonest 4
           [ {| sri_squad_id := 41; sri_mode := 1 |};
             {| sri_squad_id := 42; sri_mode := 1 |} ];
         building_other 5;
         building_civzonest 6 [ {| sri_squad_id := 41; sri_mode := 2 |} ];
         building_civzonest 7 [ {| sri_squad_id := 42; sri_mode := 1 |} ] ] |}.

(** * Properties *)

(** ** Integers *)

Lemma wrap32_in_range (z : Z) : INT32_MIN ≤ z ≤ INT32_MAX → wrap32 z = z.
Proof.
  unfold INT32_MIN, INT32_MAX, wrap32. intros Hz.
  rewrite Z.mod_small by lia. lia.
Qed.

Lemma wrap32_succ (z : Z) : INT32_MIN ≤ z < INT32_MAX → wrap32 (z + 1) = z + 1.
Proof. unfold INT32_MIN, INT32_MAX. intros Hz. apply wrap32_in_range. unfold INT32_MIN, INT32_MAX. lia. Qed.

Lemma wrap32_succ_max : wrap32 (INT32_MAX + 1) = INT32_MIN.
Proof. reflexivity. Qed.

(** [n & 1] is non-zero exactly when [n] is odd, negative [n] included. *)
Lemma land_1_odd (n : Z) : Z.land n 1 ≠ 0 ↔ Z.odd n = true.
Proof.
  change 1 with (Z.ones 1). rewrite Z.land_ones by lia.
  change (2 ^ 1) with 2. rewrite Zmod_odd.
  destruct (Z.odd n); split; intros; congruence || lia.
Qed.

(** ** Loops *)

Lemma for_range_push_length {A : Type} (n : nat) (x : A) (l : list A) :
  length (for_range n (λ _ acc, acc ++ [x]) l) = (length l + n)%nat.
Proof.
  induction n as [|n IH]; simpl.
  - lia.
  - rewrite length_app, IH. simpl. lia.
Qed.

Lemma for_range_push_replicate {A : Type} (n : nat) (x : A) :
  for_range n (λ _ acc, acc ++ [x]) [] = replicate n x.
Proof.
  induction n as [|n IH]; simpl; [done|].
  rewrite IH. symmetry. apply replicate_S_end.
Qed.

Lemma make_positions_length (squad_size : Z) :
  length (make_positions squad_size) = Z.to_nat squad_size.
Proof. unfold make_positions. by rewrite for_range_push_length. Qed.

Lemma allocate_asched_blank (squad_size : Z) :
  allocate_asched squad_size = replicate 12 (blank_entry squad_size).
Proof.
  unfold allocate_asched.
  assert (for_range (Z.to_nat squad_size)
            (λ _ e, set_order_assignments (order_assignments e ++ [-1]) e)
            new_squad_schedule_entry = blank_entry squad_size) as ->.
  { unfold blank_entry. induction (Z.to_nat squad_size) as [|n IH]; simpl; [done|].
    rewrite IH. unfold set_order_assignments. simpl.
    by rewrite <- replicate_S_end. }
  apply for_range_push_replicate.
Qed.

(** ** The schedule *)

Lemma insert_training_order_inr st squad_size month asched asched' :
  insert_training_order st squad_size month asched = inr asched' →
  0 ≤ squad_size ∧
  ∃ y t, cur_year st = Some y ∧ cur_year_tick st = Some t ∧
    asched' =
      alter (λ e, set_uniform_mode 0
                    (set_orders (orders e ++ [training_order squad_size y t]) e))
        month asched.
Proof.
  unfold insert_training_order. intros H.
  destruct (decide (squad_size < 0)); [done|].
  destruct (cur_year st) as [y|]; [|done].
  destruct (cur_year_tick st) as [t|]; [|done].
  split; [lia|]. exists y, t. by simplify_eq.
Qed.

Lemma train_month_inr st squad_size index asched asched' :
  train_month st squad_size index asched = inr asched' →
  0 ≤ squad_size ∧
  ∃ y t, cur_year st = Some y ∧ cur_year_tick st = Some t ∧
    asched' = alter (trained squad_size y t) index asched.
Proof.
  unfold train_month. intros H.
  destruct (insert_training_order st squad_size index asched) as [f|a1] eqn:E;
    simpl in H; [done|].
  apply insert_training_order_inr in E as (HN & y & t & Hy & Ht & ->).
  split; [done|]. exists y, t. split_and!; [done..|].
  simplify_eq. by rewrite list_alter_alter_eq.
Qed.

Lemma train_month_ok st squad_size index asched y t :
  0 ≤ squad_size → cur_year st = Some y → cur_year_tick st = Some t →
  train_month st squad_size index asched =
    inr (alter (trained squad_size y t) index asched).
Proof.
  intros HN Hy Ht. unfold train_month, insert_training_order.
  rewrite Hy, Ht. destruct (decide (squad_size < 0)); [lia|]. simpl.
  by rewrite list_alter_alter_eq.
Qed.

Lemma train_month_null st squad_size index asched :
  cur_year st = None ∨ cur_year_tick st = None →
  ∃ f, train_month st squad_size index asched = inl f ∧
       (0 ≤ squad_size → f = NullDereference).
Proof.
  intros Hnull. unfold train_month, insert_training_order.
  destruct (decide (squad_size < 0)).
  - exists LengthError. split; [done|lia].
  - exists NullDereference. split; [|done].
    destruct (cur_year st); [|done].
    destruct (cur_year_tick st); [|done].
    by destruct Hnull.
Qed.

Lemma for_each_train_ok st squad_size indices asched y t :
  0 ≤ squad_size → cur_year st = Some y → cur_year_tick st = Some t →
  for_each indices (train_month st squad_size) asched =
    inr (foldl (λ a i, alter (trained squad_size y t) i a) asched indices).
Proof.
  intros HN Hy Ht. revert asched.
  induction indices as [|i rest IH]; intros asched; simpl; [done|].
  rewrite (train_month_ok _ _ _ _ y t) by done. simpl. apply IH.
Qed.

(** A training branch that gets through had the size and the clock. *)
Lemma for_each_train_inr st squad_size i rest asched asched' :
  for_each (i :: rest) (train_month st squad_size) asched = inr asched' →
  0 ≤ squad_size ∧
  ∃ y t, cur_year st = Some y ∧ cur_year_tick st = Some t ∧
    asched' = foldl (λ a i, alter (trained squad_size y t) i a) asched (i :: rest).
Proof.
  intros H. simpl in H.
  destruct (train_month st squad_size i asched) as [f|a1] eqn:E; [done|].
  apply train_month_inr in E as (HN & y & t & Hy & Ht & ->).
  split; [done|]. exists y, t. split_and!; [done..|].
  simpl in H. rewrite (for_each_train_ok _ _ _ _ y t) in H by done.
  by simplify_eq.
Qed.

Lemma for_each_train_null st squad_size i rest asched :
  cur_year st = None ∨ cur_year_tick st = None →
  ∃ f, for_each (i :: rest) (train_month st squad_size) asched = inl f ∧
       (0 ≤ squad_size → f = NullDereference).
Proof.
  intros Hnull.
  destruct (train_month_null st squad_size i asched Hnull) as (f & Hf & HN).
  exists f. simpl. by rewrite Hf.
Qed.

Lemma staggered_indices (next_id : Z) :
  (if decide (Z.land next_id 1 ≠ 0)
   then [3; 4; 5; 9; 10; 11]%nat else [0; 1; 2; 6; 7; 8]%nat)
  = staggered_months next_id.
Proof.
  unfold staggered_months. pose proof (land_1_odd next_id) as H.
  destruct (decide (Z.land next_id 1 ≠ 0)) as [Hl|Hl], (Z.odd next_id); try done.
  - apply H in Hl. done.
  - destruct Hl. by apply H.
Qed.

Lemma staggered_months_cons (next_id : Z) :
  ∃ i rest, staggered_months next_id = i :: rest.
Proof. unfold staggered_months. destruct (Z.odd next_id); eauto. Qed.

Lemma fill_asched_staggered_inr st next_id squad_size asched asched' :
  fill_asched st next_id squad_size "Staggered training" asched = inr asched' →
  0 ≤ squad_size ∧
  ∃ y t, cur_year st = Some y ∧ cur_year_tick st = Some t ∧
    asched' = foldl (λ a i, alter (trained squad_size y t) i a) asched
                (staggered_months next_id).
Proof.
  unfold fill_asched.
  destruct (decide ("Staggered training" = "Off duty")); [done|].
  destruct (decide ("Staggered training" = "Staggered training")); [|done].
  rewrite staggered_indices.
  destruct (staggered_months_cons next_id) as (i & rest & ->).
  apply for_each_train_inr.
Qed.

Lemma fill_asched_constant_inr st next_id squad_size asched asched' :
  fill_asched st next_id squad_size "Constant training" asched = inr asched' →
  0 ≤ squad_size ∧
  ∃ y t, cur_year st = Some y ∧ cur_year_tick st = Some t ∧
    asched' = foldl (λ a i, alter (trained squad_size y t) i a) asched (seq 0 12).
Proof.
  unfold fill_asched.
  destruct (decide ("Constant training" = "Off duty")); [done|].
  destruct (decide ("Constant training" = "Staggered training")); [done|].
  destruct (decide ("Constant training" = "Constant training")); [|done].
  apply for_each_train_inr.
Qed.

Lemma fill_asched_training_null st next_id squad_size name asched :
  training_name name →
  cur_year st = None ∨ cur_year_tick st = None →
  ∃ f, fill_asched st next_id squad_size name asched = inl f ∧
       (0 ≤ squad_size → f = NullDereference).
Proof.
  intros [-> | ->] Hnull; unfold fill_asched.
  - destruct (decide ("Staggered training" = "Off duty")); [done|].
    destruct (decide ("Staggered training" = "Staggered training")); [|done].
    rewrite staggered_indices.
    destruct (staggered_months_cons next_id) as (i & rest & ->).
    by apply for_each_train_null.
  - destruct (decide ("Constant training" = "Off duty")); [done|].
    destruct (decide ("Constant training" = "Staggered training")); [done|].
    destruct (decide ("Constant training" = "Constant training")); [|done].
    by apply for_each_train_null.
Qed.

Lemma fill_asched_other st next_id squad_size name asched :
  ¬ training_name name →
  ∃ asched', fill_asched st next_id squad_size name asched = inr asched'.
Proof.
  intros Hname. unfold fill_asched, training_name in *.
  repeat case_decide; try (exfalso; tauto); eauto.
Qed.

Lemma fill_asched_ok st next_id squad_size name asched y t :
  0 ≤ squad_size → cur_year st = Some y → cur_year_tick st = Some t →
  ∃ asched', fill_asched st next_id squad_size name asched = inr asched'.
Proof.
  intros HN Hy Ht. unfold fill_asched.
  repeat case_decide; eauto using for_each_train_ok.
Qed.

(** [make_schedule] pushes one block per routine, in the routines' order. *)
Lemma make_schedule_inr st next_id squad_size routines acc schedule :
  make_schedule st next_id squad_size routines acc = inr schedule →
  ∃ blocks, schedule = acc ++ blocks ∧
    Forall2
      (λ r b, fill_asched st next_id squad_size (routine_name r)
                (allocate_asched squad_size) = inr b)
      routines blocks.
Proof.
  revert acc. induction routines as [|r rest IH]; intros acc H; simpl in H.
  - exists []. simplify_eq. by rewrite app_nil_r.
  - destruct (fill_asched st next_id squad_size (routine_name r)
                (allocate_asched squad_size)) as [f|b] eqn:E; [done|].
    simpl in H. apply IH in H as (blocks & -> & HF).
    exists (b :: blocks). split; [by rewrite <- app_assoc|].
    by constructor.
Qed.

Lemma make_schedule_block st next_id squad_size routines schedule k r :
  make_schedule st next_id squad_size routines [] = inr schedule →
  routines !! k = Some r →
  ∃ asched, schedule !! k = Some asched ∧
    fill_asched st next_id squad_size (routine_name r)
      (allocate_asched squad_size) = inr asched.
Proof.
  intros H Hk. apply make_schedule_inr in H as (blocks & -> & HF). simpl.
  destruct (Forall2_lookup_l _ _ _ _ _ HF Hk) as (b & Hb & Hfill). eauto.
Qed.

(** ** [makeSquad]: what a call finds *)

Lemma makeSquad_resolved assignment_id st r :
  resolves assignment_id st r →
  makeSquad assignment_id st =
    match res_schedule st r with
    | inl f => Faulted f st
    | inr schedule =>
        commit (res_fort_index r) (res_assignment_index r) (res_next_id r)
          (res_squad r schedule) st
    end.
Proof.
  intros (Hn & Hpi & Hfort & Hasg & Hfree & pj & Hpos).
  unfold makeSquad. rewrite Hn, Hpi, Hfort, Hasg.
  destruct (decide (epa_squad_id (res_assignment r) ≠ -1)); [done|].
  by rewrite Hpos.
Qed.

Lemma makeSquad_Some_inv assignment_id st s st' :
  makeSquad assignment_id st = Returned (Some s) st' →
  ∃ r schedule,
    resolves assignment_id st r ∧
    res_schedule st r = inr schedule ∧
    s = res_squad r schedule ∧
    commit (res_fort_index r) (res_assignment_index r) (res_next_id r) s st
      = Returned (Some s) st'.
Proof.
  unfold makeSquad. intros H.
  destruct (squad_next_id st) as [next_id|] eqn:Hn; [|done].
  destruct (plotinfo st) as [pi|] eqn:Hpi; [|done].
  destruct (historical_entity_find (group_id pi) st) as [[fi fort]|] eqn:Hfort;
    [|done].
  destruct (list_find _ (he_positions_assignments fort)) as [[ai asg]|] eqn:Hasg;
    [|done].
  destruct (decide (epa_squad_id asg ≠ -1)) as [|Hfree]; [done|].
  destruct (list_find _ (he_positions_own fort)) as [[pj pos]|] eqn:Hpos; [|done].
  destruct (make_schedule st next_id (ep_squad_size pos) (alerts_routines pi) [])
    as [f|schedule] eqn:Hsched; [done|].
  set (r := {| res_next_id := next_id; res_plotinfo := pi; res_fort_index := fi;
               res_fort := fort; res_assignment_index := ai;
               res_assignment := asg; res_position := pos |}).
  assert (s = res_squad r schedule) as Hs.
  { unfold commit in H. destruct (world _); [|done]. by simplify_eq. }
  subst s. exists r, schedule. split_and!; [| done | done | exact H].
  unfold resolves. simpl. split_and!; try done.
  - by apply dec_stable.
  - by exists pj.
Qed.

(** The searches are functions: a call resolves in one way at most. *)
Lemma resolves_unique assignment_id st r1 r2 :
  resolves assignment_id st r1 → resolves assignment_id st r2 → r1 = r2.
Proof.
  intros (Hn1 & Hpi1 & Hf1 & Ha1 & _ & pj1 & Hp1) (Hn2 & Hpi2 & Hf2 & Ha2 & _ & pj2 & Hp2).
  destruct r1, r2. simpl in *. simplify_eq. done.
Qed.

(** What is left of the state after the four steps of the commit. *)
Lemma commit_Returned fi ai next_id result st r' st' :
  commit fi ai next_id result st = Returned r' st' →
  ∃ w, world st = Some w ∧ r' = Some result ∧
    st' = bind_assignment fi ai (sq_id result)
            (push_world_squad w result
               (push_fort_squad fi (sq_id result)
                  (increment_squad_next_id next_id st))).
Proof.
  unfold commit. simpl. intros H.
  destruct (world st) as [w|] eqn:Hw; [|done].
  exists w. by simplify_eq.
Qed.

(** A missing world stops the commit between its second and third step:
    the counter and the entity's list are already written, the registry
    and the assignment are not. *)
Lemma commit_no_world fi ai next_id result st :
  world st = None →
  commit fi ai next_id result st =
    Faulted NullDereference
      (push_fort_squad fi (sq_id result) (increment_squad_next_id next_id st)).
Proof. unfold commit. simpl. by intros ->. Qed.

(** A resolved call returns a squad when nothing it dereferences is
    missing and the squad size is not negative. *)
Lemma makeSquad_returns assignment_id st r y t w :
  resolves assignment_id st r →
  0 ≤ res_squad_size r →
  cur_year st = Some y → cur_year_tick st = Some t → world st = Some w →
  ∃ s st', makeSquad assignment_id st = Returned (Some s) st'.
Proof.
  intros Hr HN Hy Ht Hw. rewrite (makeSquad_resolved _ _ _ Hr).
  assert (∃ schedule, res_schedule st r = inr schedule) as [schedule ->].
  { unfold res_schedule. generalize (@nil (list squad_schedule_entry)).
    induction (alerts_routines (res_plotinfo r)) as [|rt rest IH]; intros acc;
      simpl; [eauto|].
    destruct (fill_asched_ok st (res_next_id r) (res_squad_size r)
                (routine_name rt) (allocate_asched (res_squad_size r)) y t)
      as [b ->]; try done.
    simpl. apply IH. }
  unfold commit. simpl. rewrite Hw. eauto.
Qed.

(** ** C1: a successful call *)

(** C1.  After a successful call of [makeSquad]: the squad's id is the value
    the counter held before the call, and the counter is one greater after
    it (the counter being an [int32_t] below [INT32_MAX], the value at which
    the increment is undefined); the squad has as many position slots as the
    leader position's squad size, a count; and the state is the one the four
    steps of the commit leave, in their order: the counter incremented, the
    id appended to the entity's [squads], the squad appended to
    [world->squads.all], and the [squad_id] of the assignment the call was
    made for equal to the squad's id. *)
Theorem makeSquad_success assignment_id st s st' :
  makeSquad assignment_id st = Returned (Some s) st' →
  ∃ r w,
    resolves assignment_id st r ∧ world st = Some w ∧
    sq_id s = res_next_id r ∧
    squad_next_id st' = Some (wrap32 (res_next_id r + 1)) ∧
    (INT32_MIN ≤ res_next_id r < INT32_MAX →
       squad_next_id st' = Some (res_next_id r + 1)) ∧
    length (sq_positions s) = Z.to_nat (res_squad_size r) ∧
    (0 ≤ res_squad_size r →
       Z.of_nat (length (sq_positions s)) = res_squad_size r) ∧
    st' = bind_assignment (res_fort_index r) (res_assignment_index r) (sq_id s)
            (push_world_squad w s
               (push_fort_squad (res_fort_index r) (sq_id s)
                  (increment_squad_next_id (res_next_id r) st))) ∧
    (∃ w', world st' = Some w' ∧ squads_all w' = squads_all w ++ [s]) ∧
    ∃ fort' a',
      entities st' !! res_fort_index r = Some fort' ∧
      he_squads fort' = he_squads (res_fort r) ++ [sq_id s] ∧
      he_positions_assignments fort' !! res_assignment_index r = Some a' ∧
      epa_id a' = assignment_id ∧
      epa_squad_id a' = sq_id s.
Proof.
  intros H.
  destruct (makeSquad_Some_inv _ _ _ _ H) as (r & schedule & Hr & Hsched & Hs & Hc).
  destruct (commit_Returned _ _ _ _ _ _ _ Hc) as (w & Hw & _ & Hst').
  assert (length (sq_positions s) = Z.to_nat (res_squad_size r)) as Hlen.
  { rewrite Hs. simpl. apply make_positions_length. }
  assert (sq_id s = res_next_id r) as Hid by (by rewrite Hs).
  assert (squad_next_id st' = Some (wrap32 (res_next_id r + 1))) as Hctr
    by (by rewrite Hst').
  exists r, w. split_and!; try done.
  - intros Hrange. by rewrite Hctr, wrap32_succ.
  - intros HN. rewrite Hlen. lia.
  - eexists. by rewrite Hst'.
  - destruct Hr as (_ & _ & Hfort & Hasg & _).
    apply list_find_Some in Hfort as (Hfort & _ & _).
    apply list_find_Some in Hasg as (Hasg & Haid & _).
    unfold historical_entity_find in Hfort.
    eexists _, _. rewrite Hst'. simpl. rewrite !list_lookup_alter_eq, Hfort. simpl.
    split; [done|]. simpl. split; [done|].
    rewrite list_lookup_alter_eq, Hasg. simpl. done.
Qed.

Lemma makeSquad_success_witness :
  ∃ s st',
    makeSquad 11 (example_state 5 3 example_routines) = Returned (Some s) st' ∧
    sq_id s = 5 ∧ squad_next_id st' = Some 6 ∧ length (sq_positions s) = 3%nat ∧
    (∃ w', world st' = Some w' ∧ squads_all w' = [example_squad 40 "" []; s]) ∧
    ∃ fort' a',
      entities st' !! 1%nat = Some fort' ∧
      he_squads fort' = [40; 5] ∧
      he_positions_assignments fort' !! 1%nat = Some a' ∧
      epa_id a' = 11 ∧ epa_squad_id a' = 5.
Proof.
  destruct (makeSquad 11 (example_state 5 3 example_routines))
    as [[s|] st'|f st1] eqn:E; [|vm_compute in E; discriminate E..].
  destruct (makeSquad_success 11 (example_state 5 3 example_routines) s st' E)
    as (r & w & Hr & Hw & Hid & _ & Hctr & _ & Hlen & _ & Hreg & Hfort).
  assert (r = example_resolution) as ->.
  { apply (resolves_unique 11 (example_state 5 3 example_routines)); [exact Hr|].
    unfold resolves. simpl. split_and!; try reflexivity. by exists 1%nat. }
  simpl in Hw. injection Hw as <-.
  exists s, st'. split; [reflexivity|]. split; [exact Hid|].
  split; [apply Hctr; unfold INT32_MIN, INT32_MAX; simpl; lia|].
  split; [apply Nat2Z.inj; apply Hlen; unfold res_squad_size; simpl; lia|].
  split; [exact Hreg|].
  destruct Hfort as (fort' & a' & H1 & H2 & H3 & H4 & H5).
  exists fort', a'. rewrite Hid in H2, H5.
  split; [exact H1|]. split; [exact H2|]. split; [exact H3|].
  split; [exact H4|exact H5].
Defined.

(** ** C2: a precondition fails *)

Lemma list_find_None_elem_of {A : Type} (P : A → Prop) `{∀ x, Decision (P x)}
    (l : list A) :
  list_find P l = None ↔ ∀ x, x ∈ l → ¬ P x.
Proof. by rewrite list_find_None, Forall_forall. Qed.

(** C2.  When a precondition fails, [makeSquad] returns no squad and the
    state after the call is the state before it: counter, entity, registry
    and assignment included. *)
Theorem makeSquad_precondition_failure assignment_id st :
  precondition_fails assignment_id st →
  makeSquad assignment_id st = Returned None st.
Proof.
  unfold makeSquad.
  intros [Hn | Hpi | n pi fi fort Hn Hpi Hfort Hnone
          | n pi fi fort ai a Hn Hpi Hfort Ha Hbound
          | n pi fi fort ai a Hn Hpi Hfort Ha Hnone].
  - by rewrite Hn.
  - rewrite Hpi. by destruct (squad_next_id st).
  - rewrite Hn, Hpi, Hfort.
    assert (list_find (λ a, epa_id a = assignment_id)
              (he_positions_assignments fort) = None) as ->; [|done].
    by apply list_find_None_elem_of.
  - rewrite Hn, Hpi, Hfort, Ha.
    by destruct (decide (epa_squad_id a ≠ -1)).
  - rewrite Hn, Hpi, Hfort, Ha.
    destruct (decide (epa_squad_id a ≠ -1)); [done|].
    assert (list_find (λ p, ep_id p = epa_position_id a)
              (he_positions_own fort) = None) as ->; [|done].
    by apply list_find_None_elem_of.
Qed.

(** No squad returned, nothing written. *)
Lemma makeSquad_None_unchanged assignment_id st st' :
  makeSquad assignment_id st = Returned None st' → st' = st.
Proof.
  unfold makeSquad, commit. intros H.
  repeat (case_match; simplify_eq/=; try done).
Qed.

Lemma makeSquad_precondition_failure_witness :
  makeSquad 11 example_state_without_counter
    = Returned None example_state_without_counter ∧
  makeSquad 11 example_state_without_plotinfo
    = Returned None example_state_without_plotinfo ∧
  makeSquad 99 (example_state 5 3 example_routines)
    = Returned None (example_state 5 3 example_routines) ∧
  makeSquad 10 (example_state 5 3 example_routines)
    = Returned None (example_state 5 3 example_routines) ∧
  makeSquad 12 (example_state 5 3 example_routines)
    = Returned None (example_state 5 3 example_routines).
Proof.
  split_and!; apply makeSquad_precondition_failure.
  - apply no_squad_next_id. reflexivity.
  - apply no_plotinfo. reflexivity.
  - eapply (unknown_assignment 99 _ 5 _ 1%nat (example_fort 3 (-1)));
      [reflexivity..|].
    intros a Ha. apply list_elem_of_In in Ha. simpl in Ha.
    destruct Ha as [<-|[<-|[<-|[]]]]; simpl; lia.
  - eapply (assignment_bound 10 _ 5 _ 1%nat (example_fort 3 (-1)) 0%nat);
      [reflexivity..|]. simpl. lia.
  - eapply (unknown_position 12 _ 5 _ 1%nat (example_fort 3 (-1)) 2%nat);
      [reflexivity..|].
    intros p Hp. apply list_elem_of_In in Hp. simpl in Hp.
    destruct Hp as [<-|[<-|[]]]; simpl; lia.
Defined.

(** ** C9: what the call dereferences without a check *)

Lemma make_schedule_training_null st next_id squad_size routines acc rt :
  0 ≤ squad_size →
  rt ∈ routines → training_name (routine_name rt) →
  cur_year st = None ∨ cur_year_tick st = None →
  make_schedule st next_id squad_size routines acc = inl NullDereference.
Proof.
  intros HN Hin Hname Hnull. revert acc.
  induction routines as [|r rest IH]; intros acc; [by apply elem_of_nil in Hin|].
  simpl. destruct (decide (training_name (routine_name r))) as [Hr|Hr].
  - destruct (fill_asched_training_null st next_id squad_size (routine_name r)
                (allocate_asched squad_size) Hr Hnull) as (f & -> & Hf).
    simpl. by rewrite Hf.
  - destruct (fill_asched_other st next_id squad_size (routine_name r)
                (allocate_asched squad_size) Hr) as (b & ->).
    simpl. apply IH. apply elem_of_cons in Hin as [->|Hin]; done.
Qed.

(** C9.  Past the guard on [squad_next_id] and [plotinfo], a missing
    settlement entity, a missing [cur_year] or [cur_year_tick] when a
    routine attaches training orders, and a missing [world] each end the
    call in a null dereference. *)
Theorem makeSquad_unguarded assignment_id st :
  unguarded_null assignment_id st →
  ∃ st1, makeSquad assignment_id st = Faulted NullDereference st1.
Proof.
  intros [n pi Hn Hpi Hfort | r rt Hr HN Hin Hname Hnull | r schedule Hr Hsched Hw].
  - exists st. unfold makeSquad. by rewrite Hn, Hpi, Hfort.
  - exists st. rewrite (makeSquad_resolved _ _ _ Hr). unfold res_schedule.
    by rewrite (make_schedule_training_null _ _ _ _ _ rt).
  - eexists. rewrite (makeSquad_resolved _ _ _ Hr), Hsched.
    by apply commit_no_world.
Qed.

Lemma makeSquad_unguarded_witness :
  (∃ st1, makeSquad 11 example_state_without_fort = Faulted NullDereference st1) ∧
  (∃ st1, makeSquad 11 example_state_without_clock = Faulted NullDereference st1) ∧
  (∃ st1, makeSquad 11 example_state_without_world = Faulted NullDereference st1).
Proof.
  split_and!; apply makeSquad_unguarded.
  - eapply (null_fort 11 _ 5); reflexivity.
  - apply (null_clock 11 _ example_resolution {| routine_name := "Constant training" |}).
    + unfold resolves. simpl. split_and!; try reflexivity. by exists 1%nat.
    + simpl. unfold res_squad_size. simpl. lia.
    + apply list_elem_of_In. simpl. right. right. left. reflexivity.
    + by right.
    + by right.
  - eapply (null_world 11 _ example_resolution).
    + unfold resolves. simpl. split_and!; try reflexivity. by exists 1%nat.
    + vm_compute. reflexivity.
    + reflexivity.
Defined.

(** ** C3 and C4: the training routines *)

(** Case analysis on the 12 slots of an explicit block. *)
Ltac each_slot m Hm tac :=
  do 12 (destruct m as [|m]; [injection Hm as <-; tac|]);
  discriminate Hm.

Lemma staggered_block squad_size y t next_id asched :
  asched = foldl (λ a i, alter (trained squad_size y t) i a)
             (replicate 12 (blank_entry squad_size)) (staggered_months next_id) →
  length asched = 12%nat ∧
  ∀ m e, asched !! m = Some e →
    (m ∈ staggered_months next_id →
       e = trained squad_size y t (blank_entry squad_size)) ∧
    (m ∉ staggered_months next_id → e = blank_entry squad_size).
Proof.
  intros ->. unfold staggered_months.
  destruct (Z.odd next_id); cbn [foldl replicate alter list_alter];
    (split; [reflexivity|]); intros m e Hm;
    each_slot m Hm
      ltac:(split; intros Hin;
            first [ reflexivity
                  | exfalso; apply Hin; apply list_elem_of_In; simpl; auto 10
                  | exfalso; apply list_elem_of_In in Hin; simpl in Hin;
                    intuition discriminate ]).
Qed.

Lemma constant_block squad_size y t asched :
  asched = foldl (λ a i, alter (trained squad_size y t) i a)
             (replicate 12 (blank_entry squad_size)) (seq 0 12) →
  asched = replicate 12 (trained squad_size y t (blank_entry squad_size)).
Proof. by intros ->. Qed.

(** C3.  In a squad a successful call returns, the block of a routine named
    "Staggered training" has 12 slots; the slots of [staggered_months] (3,
    4, 5, 9, 10, 11 for an odd counter, 0, 1, 2, 6, 7, 8 for an even one,
    the counter being read before its increment) hold one training order
    each and have sleep-mode 0; the other six hold no order. *)
Theorem makeSquad_staggered_training assignment_id st s st' next_id pi k rt :
  makeSquad assignment_id st = Returned (Some s) st' →
  squad_next_id st = Some next_id →
  plotinfo st = Some pi →
  alerts_routines pi !! k = Some rt →
  routine_name rt = "Staggered training" →
  ∃ asched,
    sq_schedule s !! k = Some asched ∧
    length asched = 12%nat ∧
    ∀ m e, asched !! m = Some e →
      (m ∈ staggered_months next_id →
         (∃ o, orders e = [o] ∧ is_Some (order o)) ∧ sleep_mode e = 0) ∧
      (m ∉ staggered_months next_id → orders e = []).
Proof.
  intros H Hn Hpi Hk Hname.
  destruct (makeSquad_Some_inv _ _ _ _ H) as (r & schedule & Hr & Hsched & Hs & _).
  destruct Hr as (Hn' & Hpi' & _). simplify_eq.
  destruct (make_schedule_block _ _ _ _ _ _ _ Hsched Hk) as (asched & Hblock & Hfill).
  rewrite Hname, allocate_asched_blank in Hfill.
  apply fill_asched_staggered_inr in Hfill as (HN & y & t & Hy & Ht & Hfill).
  apply staggered_block in Hfill as (Hlen & Hslots).
  exists asched. split_and!; [done..|].
  intros m e Hm. destruct (Hslots m e Hm) as (Hin & Hout). split.
  - intros ->%Hin. simpl. eauto.
  - by intros ->%Hout.
Qed.

Lemma makeSquad_staggered_training_witness :
  ∃ s st' asched,
    makeSquad 11 (example_state 5 3 example_routines) = Returned (Some s) st' ∧
    staggered_months 5 = [3; 4; 5; 9; 10; 11]%nat ∧
    sq_schedule s !! 1%nat = Some asched ∧
    length asched = 12%nat ∧
    ∀ m e, asched !! m = Some e →
      (m ∈ staggered_months 5 →
         (∃ o, orders e = [o] ∧ is_Some (order o)) ∧ sleep_mode e = 0) ∧
      (m ∉ staggered_months 5 → orders e = []).
Proof.
  destruct (makeSquad 11 (example_state 5 3 example_routines))
    as [[s|] st'|f st1] eqn:E; [|vm_compute in E; discriminate E..].
  destruct (makeSquad_staggered_training 11 (example_state 5 3 example_routines)
              s st' 5 {| group_id := 7; alerts_routines := example_routines |}
              1%nat {| routine_name := "Staggered training" |})
    as (asched & Hk & Hlen & Hslots);
    [exact E | reflexivity | reflexivity | reflexivity | reflexivity |].
  exists s, st', asched. split; [reflexivity|]. split; [reflexivity|].
  split; [exact Hk|]. split; [exact Hlen|]. exact Hslots.
Defined.

Lemma trained_training_slot st squad_size y t :
  0 ≤ squad_size → cur_year st = Some y → cur_year_tick st = Some t →
  training_slot st squad_size (trained squad_size y t (blank_entry squad_size)).
Proof.
  intros HN Hy Ht. exists (training_order squad_size y t), y, t.
  split_and!; try done. simpl. rewrite length_replicate. lia.
Qed.

(** C4.  In a squad a successful call returns, every slot of a routine named
    "Constant training" and every slot of [staggered_months] of a routine
    named "Staggered training" is a [training_slot] for the leader
    position's squad size: the order's minimum count and number of position
    bits are the squad size, its training record carries the current year
    and tick and -1 in the reserved field, and the slot's uniform-mode is 0.
    Under "Constant training" each of the 12 slots has sleep-mode 0 too. *)
Theorem makeSquad_training_orders assignment_id st s st' r k rt :
  makeSquad assignment_id st = Returned (Some s) st' →
  resolves assignment_id st r →
  alerts_routines (res_plotinfo r) !! k = Some rt →
  ∃ asched,
    sq_schedule s !! k = Some asched ∧
    (routine_name rt = "Constant training" →
       length asched = 12%nat ∧
       ∀ m e, asched !! m = Some e →
         training_slot st (res_squad_size r) e ∧ sleep_mode e = 0) ∧
    (routine_name rt = "Staggered training" →
       length asched = 12%nat ∧
       ∀ m e, asched !! m = Some e → m ∈ staggered_months (res_next_id r) →
         training_slot st (res_squad_size r) e ∧ sleep_mode e = 0).
Proof.
  intros H Hr Hk.
  destruct (makeSquad_Some_inv _ _ _ _ H) as (r' & schedule & Hr' & Hsched & Hs & _).
  assert (r' = r) as -> by eauto using resolves_unique.
  destruct (make_schedule_block _ _ _ _ _ _ _ Hsched Hk) as (asched & Hblock & Hfill).
  exists asched. split; [by rewrite Hs|].
  rewrite allocate_asched_blank in Hfill. split; intros Hname; rewrite Hname in Hfill.
  - apply fill_asched_constant_inr in Hfill as (HN & y & t & Hy & Ht & Hfill).
    apply constant_block in Hfill as ->. split; [reflexivity|].
    intros m e [-> _]%lookup_replicate.
    split; [by apply trained_training_slot | done].
  - apply fill_asched_staggered_inr in Hfill as (HN & y & t & Hy & Ht & Hfill).
    apply staggered_block in Hfill as (Hlen & Hslots). split; [done|].
    intros m e Hm Hin. destruct (Hslots m e Hm) as (He & _).
    rewrite (He Hin). split; [by apply trained_training_slot | done].
Qed.

Lemma makeSquad_training_orders_witness :
  ∃ s st' asched,
    makeSquad 11 (example_state 5 3 example_routines) = Returned (Some s) st' ∧
    sq_schedule s !! 2%nat = Some asched ∧
    length asched = 12%nat ∧
    ∀ m e, asched !! m = Some e →
      training_slot (example_state 5 3 example_routines) 3 e ∧ sleep_mode e = 0.
Proof.
  destruct (makeSquad 11 (example_state 5 3 example_routines))
    as [[s|] st'|f st1] eqn:E; [|vm_compute in E; discriminate E..].
  destruct (makeSquad_training_orders 11 (example_state 5 3 example_routines)
              s st' example_resolution 2%nat
              {| routine_name := "Constant training" |})
    as (asched & Hk & Hconstant & _).
  - exact E.
  - unfold resolves. simpl. split_and!; try reflexivity. by exists 1%nat.
  - reflexivity.
  - exists s, st', asched. split; [reflexivity|]. split; [exact Hk|].
    exact (Hconstant eq_refl).
Defined.

(** ** C5: the name of a squad *)

(** C5.  [getSquadName] answers the empty string when the registry has no
    squad with the id; the alias of the squad found when it has one,
    whatever its structured name; and else what the translation service
    makes of the structured name.  The state is the same after the call. *)
Theorem getSquadName_spec (TranslateName : language_name → bool → string)
    squad_id st :
  (squad_find squad_id st = None →
     getSquadName TranslateName squad_id st = ("", st)) ∧
  (∀ i squad, squad_find squad_id st = Some (i, squad) →
     sq_alias squad ≠ "" →
     getSquadName TranslateName squad_id st = (sq_alias squad, st)) ∧
  (∀ i squad, squad_find squad_id st = Some (i, squad) →
     sq_alias squad = "" →
     getSquadName TranslateName squad_id st
       = (TranslateName (sq_name squad) true, st)).
Proof.
  unfold getSquadName. split_and!.
  - by intros ->.
  - intros i squad -> Halias.
    destruct (sq_alias squad) as [|c alias]; [done|].
    simpl. destruct (decide (0 < S (String.length alias))%nat); [done|lia].
  - intros i squad -> ->. simpl.
    destruct (decide (0 < 0)%nat); [lia|done].
Qed.

(** The lookup finds nothing exactly when no squad of the registry has the
    id, and what it finds is a squad of the registry with the id. *)
Lemma squad_find_None squad_id st :
  squad_find squad_id st = None ↔
  ∀ w, world st = Some w → ∀ s, s ∈ squads_all w → sq_id s ≠ squad_id.
Proof.
  unfold squad_find. destruct (world st) as [w|]; simpl.
  - rewrite list_find_None_elem_of. split.
    + intros H w' [= <-]. done.
    + intros H. by apply H.
  - split; [by intros _ w' ?|done].
Qed.

Lemma squad_find_Some squad_id st si squad :
  squad_find squad_id st = Some (si, squad) →
  ∃ w, world st = Some w ∧ squads_all w !! si = Some squad ∧
       sq_id squad = squad_id.
Proof.
  unfold squad_find. destruct (world st) as [w|]; simpl; [|done].
  intros (Hl & Hid & _)%list_find_Some. eauto.
Qed.

Lemma getSquadName_spec_witness :
  getSquadName example_translate 99 example_registry = ("", example_registry) ∧
  getSquadName example_translate 41 example_registry
    = ("Axe lords", example_registry) ∧
  getSquadName example_translate 40 example_registry
    = ("The Squad", example_registry).
Proof.
  split_and!.
  - apply (getSquadName_spec example_translate 99 example_registry). reflexivity.
  - apply (proj1 (proj2 (getSquadName_spec example_translate 41 example_registry))
             1%nat (example_squad 41 "Axe lords" [])); [reflexivity|discriminate].
  - apply (proj2 (proj2 (getSquadName_spec example_translate 40 example_registry))
             0%nat (example_squad 40 "" [])); reflexivity.
Defined.

(** ** Vectors of keyed records *)

Lemma erase_rooms_loop_filter fuel civzone_id i rooms :
  (length rooms - i ≤ fuel)%nat →
  erase_rooms_loop fuel civzone_id i rooms =
    take i rooms ++ filter (λ room, building_id room ≠ civzone_id) (drop i rooms).
Proof.
  revert i rooms. induction fuel as [|fuel IH]; intros i rooms Hfuel; simpl.
  - rewrite drop_ge, take_ge by lia. by rewrite app_nil_r.
  - destruct (rooms !! i) as [room|] eqn:Hi.
    + pose proof (lookup_lt_Some _ _ _ Hi) as Hlt.
      rewrite (drop_S _ _ _ Hi).
      destruct (decide (building_id room = civzone_id)) as [Heq|Hne].
      * rewrite IH by (rewrite length_delete by eauto; lia).
        rewrite filter_cons_False by (by intros ?).
        rewrite delete_take_drop.
        rewrite take_app_le, take_take, Nat.min_id by (rewrite length_take; lia).
        rewrite drop_app_length' by (rewrite length_take; lia). done.
      * rewrite IH by lia.
        rewrite filter_cons_True by done.
        rewrite (take_S_r _ _ _ Hi), <- app_assoc. done.
    + apply lookup_ge_None in Hi.
      rewrite drop_ge, take_ge by lia. by rewrite app_nil_r.
Qed.

(** The erase loop removes every record of the building and no other. *)
Lemma erase_rooms_filter civzone_id rooms :
  erase_rooms civzone_id rooms =
    filter (λ room, building_id room ≠ civzone_id) rooms.
Proof. unfold erase_rooms. rewrite erase_rooms_loop_filter by lia. done. Qed.

Section Keyed.

Context {A : Type} (key : A → Z) (set_mode : Z → A → A).
Hypothesis key_set_mode : ∀ v a, key (set_mode v a) = key a.

Lemma HdRel_alter_key v x i l :
  HdRel (key_le key) x l → HdRel (key_le key) x (alter (set_mode v) i l).
Proof.
  intros [|y l' Hxy]; [constructor|].
  destruct i as [|i]; simpl; constructor; unfold key_le in *;
    by rewrite ?key_set_mode.
Qed.

(** Writing the mode of a record leaves a sorted vector sorted. *)
Lemma Sorted_alter_key v i l :
  Sorted (key_le key) l → Sorted (key_le key) (alter (set_mode v) i l).
Proof.
  intros Hsorted. revert i.
  induction Hsorted as [|x l Hl IH Hhd]; intros i; [constructor|].
  destruct i as [|i]; simpl.
  - constructor; [done|]. destruct Hhd; constructor.
    unfold key_le in *. by rewrite key_set_mode.
  - constructor; [apply IH|]. by apply HdRel_alter_key.
Qed.

(** ... and the first record with a key stays where it is. *)
Lemma list_find_key_alter k v i x l :
  list_find (λ a, key a = k) l = Some (i, x) →
  list_find (λ a, key a = k) (alter (set_mode v) i l) = Some (i, set_mode v x).
Proof.
  intros (Hi & Hk & Hleast)%list_find_Some. apply list_find_Some.
  split_and!.
  - by rewrite list_lookup_alter_eq, Hi.
  - by rewrite key_set_mode.
  - intros j y Hj Hlt. rewrite list_lookup_alter_ne in Hj by lia. eauto.
Qed.

Lemma filter_key_alter k v i x (l : list A) :
  l !! i = Some x → key x = k →
  filter (λ a, key a ≠ k) (alter (set_mode v) i l) = filter (λ a, key a ≠ k) l.
Proof.
  revert i. induction l as [|y l IH]; intros i Hi Hk; [done|].
  destruct i as [|i]; simpl in Hi.
  - simplify_eq.
    change (alter (set_mode v) 0%nat (x :: l)) with (set_mode v x :: l).
    rewrite !filter_cons_False; [done|intros ?; done|].
    intros Hne. apply Hne. apply key_set_mode.
  - change (alter (set_mode v) (S i) (y :: l))
      with (y :: alter (set_mode v) i l).
    rewrite !filter_cons. by rewrite (IH i).
Qed.

(** A record pushed on a vector that had none with its key is, after the
    sort, the first record with that key. *)
Lemma list_find_key_fresh k fresh l l' :
  key fresh = k →
  list_find (λ a, key a = k) l = None →
  l' ≡ₚ l ++ [fresh] →
  ∃ j, list_find (λ a, key a = k) l' = Some (j, fresh).
Proof.
  intros Hk Hnone Hperm.
  assert (fresh ∈ l') as Hin.
  { rewrite Hperm. apply elem_of_app. right. apply list_elem_of_singleton. done. }
  destruct (list_find_elem_of (λ a, key a = k) l' fresh Hin Hk) as [[j x] Hj].
  exists j. rewrite Hj. do 2 f_equal.
  apply list_find_Some in Hj as (Hx & Hkx & _).
  apply list_elem_of_lookup_2 in Hx. rewrite Hperm in Hx.
  apply elem_of_app in Hx as [Hx|Hx%list_elem_of_singleton]; [|done].
  rewrite list_find_None_elem_of in Hnone. by destruct (Hnone x Hx).
Qed.

Lemma alter_fresh_Permutation v j fresh (l l' : list A) :
  l' ≡ₚ l ++ [fresh] → l' !! j = Some fresh →
  alter (set_mode v) j l' ≡ₚ l ++ [set_mode v fresh].
Proof.
  intros Hperm Hj.
  assert (alter (set_mode v) j l' = <[j := set_mode v fresh]> l') as ->.
  { rewrite list_insert_alter. apply list_alter_ext; [|done].
    intros x Hx. by simplify_eq. }
  rewrite insert_take_drop by eauto using lookup_lt_Some.
  rewrite <- (take_drop_middle _ _ _ Hj) in Hperm.
  rewrite <- Permutation_middle in Hperm.
  rewrite <- (Permutation_cons_append l) in Hperm.
  apply Permutation_cons_inv in Hperm.
  by rewrite <- Permutation_middle, Hperm, Permutation_cons_append.
Qed.

End Keyed.

(** ** [updateRoomAssignments]: one vector at a time *)

Lemma updateRoomAssignments_found alg squad_id civzone_id flags st
    si squad bi zone_id info :
  squad_find squad_id st = Some (si, squad) →
  strict_virtual_cast_civzonest (building_find civzone_id st)
    = Some (bi, zone_id, info) →
  updateRoomAssignments alg squad_id civzone_id flags st =
    if decide (flags = 0 ∧ find_room civzone_id (sq_rooms squad) = None ∧
               find_room_info squad_id info = None)
    then st
    else store_zone_info bi zone_id (info_sync alg squad_id flags info)
           (store_squad_rooms si (rooms_sync alg civzone_id flags (sq_rooms squad)) st).
Proof.
  intros Hsquad Hzone. unfold updateRoomAssignments. rewrite Hsquad, Hzone.
  case_decide; [done|]. unfold rooms_sync, info_sync.
  destruct (ensure_room_from_squad _ _ _ _ _) as [rooms1 p1].
  destruct (ensure_room_from_building _ _ _ _) as [info1 p2]. done.
Qed.

Lemma find_room_None civzone_id rooms :
  find_room civzone_id rooms = None ↔
  ∀ room, room ∈ rooms → building_id room ≠ civzone_id.
Proof.
  unfold find_room. rewrite fmap_None. apply list_find_None_elem_of.
Qed.

Lemma find_room_Some civzone_id rooms i :
  find_room civzone_id rooms = Some i →
  ∃ room, list_find (λ room, building_id room = civzone_id) rooms = Some (i, room) ∧
          rooms !! i = Some room ∧ building_id room = civzone_id.
Proof.
  unfold find_room. intros ([j room] & Hfind & ->)%fmap_Some.
  exists room. simpl. split; [done|].
  apply list_find_Some in Hfind as (? & ? & _). done.
Qed.

Lemma find_room_elem_of civzone_id rooms room :
  room ∈ rooms → building_id room = civzone_id →
  ∃ i, find_room civzone_id rooms = Some i.
Proof.
  intros Hin Hid. unfold find_room.
  destruct (list_find_elem_of (λ room, building_id room = civzone_id) rooms room)
    as [[i x] ->]; eauto.
Qed.

Lemma find_room_info_None squad_id info :
  find_room_info squad_id info = None ↔
  ∀ room, room ∈ info → sri_squad_id room ≠ squad_id.
Proof.
  unfold find_room_info. rewrite fmap_None. apply list_find_None_elem_of.
Qed.

Lemma find_room_info_Some squad_id info i :
  find_room_info squad_id info = Some i →
  ∃ room, list_find (λ room, sri_squad_id room = squad_id) info = Some (i, room) ∧
          info !! i = Some room ∧ sri_squad_id room = squad_id.
Proof.
  unfold find_room_info. intros ([j room] & Hfind & ->)%fmap_Some.
  exists room. simpl. split; [done|].
  apply list_find_Some in Hfind as (? & ? & _). done.
Qed.

Lemma find_room_info_elem_of squad_id info room :
  room ∈ info → sri_squad_id room = squad_id →
  ∃ i, find_room_info squad_id info = Some i.
Proof.
  intros Hin Hid. unfold find_room_info.
  destruct (list_find_elem_of (λ room, sri_squad_id room = squad_id) info room)
    as [[i x] ->]; eauto.
Qed.

(** *** The squad's vector *)

(** The record is there: its mode is written, and with flags that are not
    all zero nothing else happens. *)
Lemma rooms_sync_present alg civzone_id flags rooms i :
  flags ≠ 0 → find_room civzone_id rooms = Some i →
  rooms_sync alg civzone_id flags rooms = alter (set_rooms_mode flags) i rooms.
Proof.
  intros Hflags Hfind. unfold rooms_sync, ensure_room_from_squad. rewrite Hfind.
  rewrite bool_decide_eq_false_2 by (intros [? _]; done).
  rewrite (decide_False (P := flags = 0 ∧ false = false))
    by (intros [? _]; done).
  by rewrite (decide_False (P := false = false ∧ Some i = None))
    by (intros [_ ?]; done).
Qed.

(** The record is missing and the flags are not all zero: the record is
    pushed, the vector sorted, the mode written. *)
Lemma rooms_sync_absent alg civzone_id flags rooms :
  flags ≠ 0 → find_room civzone_id rooms = None →
  rooms_sync alg civzone_id flags rooms
    ≡ₚ rooms ++ [ {| building_id := civzone_id; rooms_mode := flags |} ] ∧
  Sorted (key_le building_id) (rooms_sync alg civzone_id flags rooms).
Proof.
  intros Hflags Hfind. unfold rooms_sync, ensure_room_from_squad. rewrite Hfind.
  rewrite bool_decide_eq_false_2 by (intros [? _]; done).
  rewrite (decide_False (P := flags = 0 ∧ false = false))
    by (intros [? _]; done).
  rewrite (decide_True (P := false = false ∧ None = None)) by done. simpl.
  set (fresh := {| building_id := civzone_id; rooms_mode := 0 |}).
  set (rooms' := std_sort alg T_rooms building_id (rooms ++ [fresh])).
  pose proof (std_sort_permutation alg T_rooms building_id (rooms ++ [fresh]))
    as Hperm. fold rooms' in Hperm.
  destruct (list_find_key_fresh building_id civzone_id fresh rooms rooms')
    as [j Hj]; [done | | done |].
  { unfold find_room in Hfind. by apply fmap_None in Hfind. }
  unfold find_room. rewrite Hj. simpl. split.
  - apply list_find_Some in Hj as (Hj & _).
    apply (alter_fresh_Permutation set_rooms_mode flags j fresh rooms rooms');
      done.
  - apply (Sorted_alter_key building_id set_rooms_mode (λ _ _, eq_refl)).
    apply (std_sort_sorted alg T_rooms building_id).
Qed.

(** All-zero flags and a record that is there: its mode is written, then
    every record of the building is erased. *)
Lemma rooms_sync_revoke alg civzone_id rooms i :
  find_room civzone_id rooms = Some i →
  rooms_sync alg civzone_id 0 rooms =
    filter (λ room, building_id room ≠ civzone_id) rooms.
Proof.
  intros Hfind. unfold rooms_sync, ensure_room_from_squad. rewrite Hfind.
  rewrite bool_decide_eq_false_2 by (intros [_ ?]; done).
  rewrite (decide_True (P := 0 = 0 ∧ false = false)) by done.
  rewrite (decide_False (P := false = false ∧ Some i = None))
    by (intros [_ ?]; done).
  simpl. rewrite erase_rooms_filter.
  apply find_room_Some in Hfind as (room & _ & Hi & Hid).
  by apply (filter_key_alter building_id set_rooms_mode (λ _ _, eq_refl)
              civzone_id 0 i room).
Qed.

(** *** The zone's vector *)

Lemma info_sync_present alg squad_id flags info i :
  find_room_info squad_id info = Some i →
  info_sync alg squad_id flags info = alter (set_sri_mode flags) i info.
Proof.
  intros Hfind. unfold info_sync, ensure_room_from_building. rewrite Hfind.
  by rewrite decide_False by done.
Qed.

Lemma info_sync_absent alg squad_id flags info :
  find_room_info squad_id info = None →
  info_sync alg squad_id flags info
    ≡ₚ info ++ [ {| sri_squad_id := squad_id; sri_mode := flags |} ] ∧
  Sorted (key_le sri_squad_id) (info_sync alg squad_id flags info).
Proof.
  intros Hfind. unfold info_sync, ensure_room_from_building. rewrite Hfind.
  rewrite decide_True by done. simpl.
  set (fresh := {| sri_squad_id := squad_id; sri_mode := 0 |}).
  set (info' := std_sort alg T_squad_room_info sri_squad_id (info ++ [fresh])).
  pose proof (std_sort_permutation alg T_squad_room_info sri_squad_id
                (info ++ [fresh])) as Hperm. fold info' in Hperm.
  destruct (list_find_key_fresh sri_squad_id squad_id fresh info info')
    as [j Hj]; [done | | done |].
  { unfold find_room_info in Hfind. by apply fmap_None in Hfind. }
  unfold find_room_info. rewrite Hj. simpl. split.
  - apply list_find_Some in Hj as (Hj & _).
    apply (alter_fresh_Permutation set_sri_mode flags j fresh info info'); done.
  - apply (Sorted_alter_key sri_squad_id set_sri_mode (λ _ _, eq_refl)).
    apply (std_sort_sorted alg T_squad_room_info sri_squad_id).
Qed.

(** *** The stores *)

Lemma list_find_insert_same {A : Type} (P : A → Prop) `{∀ x, Decision (P x)}
    (l : list A) i x y :
  list_find P l = Some (i, x) → P y →
  list_find P (<[i := y]> l) = Some (i, y).
Proof.
  intros (Hi & Hx & Hleast)%list_find_Some Hy. apply list_find_Some.
  split_and!; [|done|].
  - apply list_lookup_insert_eq. eauto using lookup_lt_Some.
  - intros j z Hj Hlt. rewrite list_lookup_insert_ne in Hj by lia. eauto.
Qed.

Lemma squad_find_store squad_id st si squad bi zone_id info' rooms' :
  squad_find squad_id st = Some (si, squad) →
  squad_find squad_id
    (store_zone_info bi zone_id info' (store_squad_rooms si rooms' st))
  = Some (si, set_sq_rooms rooms' squad).
Proof.
  unfold squad_find, store_zone_info, store_squad_rooms.
  destruct (world st) as [w|]; simpl; [|done]. intros Hfind.
  by apply (list_find_key_alter sq_id (λ _ : Z, set_sq_rooms rooms')
              (λ _ _, eq_refl) squad_id 0).
Qed.

Lemma zone_find_store civzone_id st si bi zone_id info info' rooms' :
  strict_virtual_cast_civzonest (building_find civzone_id st)
    = Some (bi, zone_id, info) →
  strict_virtual_cast_civzonest
    (building_find civzone_id
       (store_zone_info bi zone_id info' (store_squad_rooms si rooms' st)))
  = Some (bi, zone_id, info').
Proof.
  unfold strict_virtual_cast_civzonest, building_find, store_zone_info.
  destruct (list_find _ (buildings st)) as [[bi' [id' info0|id']]|] eqn:Hfind;
    intros [= -> -> ->]; [].
  assert (buildings (store_squad_rooms si rooms' st) = buildings st) as Hb.
  { unfold store_squad_rooms. by destruct (world st). }
  simpl. rewrite Hb.
  rewrite (list_find_insert_same _ _ _ _ (building_civzonest zone_id info') Hfind);
    [done|].
  by apply list_find_Some in Hfind as (_ & ? & _).
Qed.

(** ** C6: granting access *)

(** C6.  With flags that are not all zero, a squad and a civilian zone that
    resolve: the squad found after the call has a room record for the
    building and the zone found after the call a room-info record for the
    squad, both with the given flags.  A record that was missing is created:
    the vector is then the old one with the new record, sorted by its key.
    A record that was there has its mode written, in place.  The squad's
    rooms, sorted by building id before the call, are sorted after it, and
    so is the zone's room info, by squad id. *)
Theorem updateRoomAssignments_grant alg squad_id civzone_id flags st
    si squad bi zone_id info :
  flags ≠ 0 →
  squad_find squad_id st = Some (si, squad) →
  strict_virtual_cast_civzonest (building_find civzone_id st)
    = Some (bi, zone_id, info) →
  let st' := updateRoomAssignments alg squad_id civzone_id flags st in
  ∃ squad' info',
    squad_find squad_id st' = Some (si, squad') ∧
    strict_virtual_cast_civzonest (building_find civzone_id st')
      = Some (bi, zone_id, info') ∧
    (∃ room, room ∈ sq_rooms squad' ∧ building_id room = civzone_id ∧
             rooms_mode room = flags) ∧
    (∃ room, room ∈ info' ∧ sri_squad_id room = squad_id ∧
             sri_mode room = flags) ∧
    (Sorted (key_le building_id) (sq_rooms squad) →
       Sorted (key_le building_id) (sq_rooms squad')) ∧
    (Sorted (key_le sri_squad_id) info → Sorted (key_le sri_squad_id) info') ∧
    (find_room civzone_id (sq_rooms squad) = None →
       sq_rooms squad'
         ≡ₚ sq_rooms squad
              ++ [ {| building_id := civzone_id; rooms_mode := flags |} ] ∧
       Sorted (key_le building_id) (sq_rooms squad')) ∧
    (∀ i, find_room civzone_id (sq_rooms squad) = Some i →
       sq_rooms squad' = alter (set_rooms_mode flags) i (sq_rooms squad)) ∧
    (find_room_info squad_id info = None →
       info' ≡ₚ info ++ [ {| sri_squad_id := squad_id; sri_mode := flags |} ] ∧
       Sorted (key_le sri_squad_id) info') ∧
    (∀ i, find_room_info squad_id info = Some i →
       info' = alter (set_sri_mode flags) i info).
Proof.
  intros Hflags Hsquad Hzone st'. subst st'.
  rewrite (updateRoomAssignments_found _ _ _ _ _ _ _ _ _ _ Hsquad Hzone).
  rewrite decide_False by (intros [? _]; done).
  exists (set_sq_rooms (rooms_sync alg civzone_id flags (sq_rooms squad)) squad),
         (info_sync alg squad_id flags info).
  split; [by apply squad_find_store|].
  split; [by eapply zone_find_store|].
  cbn [sq_rooms set_sq_rooms].
  split_and!.
  - destruct (find_room civzone_id (sq_rooms squad)) as [i|] eqn:Hfind.
    + rewrite (rooms_sync_present _ _ _ _ i) by done.
      apply find_room_Some in Hfind as (room & _ & Hi & Hid).
      exists (set_rooms_mode flags room). split_and!; [|done..].
      apply (list_elem_of_lookup_2 _ i). by rewrite list_lookup_alter_eq, Hi.
    + destruct (rooms_sync_absent alg civzone_id flags _ Hflags Hfind)
        as [Hperm _].
      exists {| building_id := civzone_id; rooms_mode := flags |}.
      split_and!; [|reflexivity..].
      rewrite Hperm. apply elem_of_app. right. by apply list_elem_of_singleton.
  - destruct (find_room_info squad_id info) as [i|] eqn:Hfind.
    + rewrite (info_sync_present _ _ _ _ i) by done.
      apply find_room_info_Some in Hfind as (room & _ & Hi & Hid).
      exists (set_sri_mode flags room). split_and!; [|done..].
      apply (list_elem_of_lookup_2 _ i). by rewrite list_lookup_alter_eq, Hi.
    + destruct (info_sync_absent alg squad_id flags _ Hfind) as [Hperm _].
      exists {| sri_squad_id := squad_id; sri_mode := flags |}.
      split_and!; [|reflexivity..].
      rewrite Hperm. apply elem_of_app. right. by apply list_elem_of_singleton.
  - intros Hsorted.
    destruct (find_room civzone_id (sq_rooms squad)) as [i|] eqn:Hfind.
    + rewrite (rooms_sync_present _ _ _ _ i) by done.
      by apply (Sorted_alter_key building_id set_rooms_mode (λ _ _, eq_refl)).
    + by apply rooms_sync_absent.
  - intros Hsorted.
    destruct (find_room_info squad_id info) as [i|] eqn:Hfind.
    + rewrite (info_sync_present _ _ _ _ i) by done.
      by apply (Sorted_alter_key sri_squad_id set_sri_mode (λ _ _, eq_refl)).
    + by apply info_sync_absent.
  - intros Hfind. by apply rooms_sync_absent.
  - intros i Hfind. by apply rooms_sync_present.
  - intros Hfind. by apply info_sync_absent.
  - intros i Hfind. by apply info_sync_present.
Qed.

Lemma updateRoomAssignments_grant_witness :
  ∃ squad' info',
    squad_find 42
      (updateRoomAssignments merge_sort_algorithm 42 6 3 example_sorted_registry)
      = Some (2%nat, squad') ∧
    strict_virtual_cast_civzonest
      (building_find 6
         (updateRoomAssignments merge_sort_algorithm 42 6 3 example_sorted_registry))
      = Some (2%nat, 6, info') ∧
    (∃ room, room ∈ sq_rooms squad' ∧ building_id room = 6 ∧ rooms_mode room = 3) ∧
    (∃ room, room ∈ info' ∧ sri_squad_id room = 42 ∧ sri_mode room = 3) ∧
    Sorted (key_le building_id) (sq_rooms squad') ∧
    Sorted (key_le sri_squad_id) info' ∧
    sq_rooms squad'
      ≡ₚ [ {| building_id := 4; rooms_mode := 1 |};
           {| building_id := 7; rooms_mode := 1 |};
           {| building_id := 6; rooms_mode := 3 |} ] ∧
    info' ≡ₚ [ {| sri_squad_id := 41; sri_mode := 2 |};
               {| sri_squad_id := 42; sri_mode := 3 |} ].
Proof.
  destruct (updateRoomAssignments_grant merge_sort_algorithm 42 6 3
              example_sorted_registry 2%nat
              (example_squad 42 ""
                 [ {| building_id := 4; rooms_mode := 1 |};
                   {| building_id := 7; rooms_mode := 1 |} ])
              2%nat 6 [ {| sri_squad_id := 41; sri_mode := 2 |} ])
    as (squad' & info' & Hs & Hz & Hroom & Hinfo & Hsr & Hsi & Hcr & _ & Hci & _);
    [lia | reflexivity | reflexivity |].
  exists squad', info'.
  split; [exact Hs|]. split; [exact Hz|]. split; [exact Hroom|].
  split; [exact Hinfo|].
  split; [apply Hsr; repeat constructor; unfold key_le; simpl; lia|].
  split; [apply Hsi; repeat constructor|].
  split; [exact (proj1 (Hcr eq_refl))|exact (proj1 (Hci eq_refl))].
Defined.

(** ** C7 and C10: revoking access *)

(** C7.  All-zero flags on a pair whose association is recorded on both
    sides: the squad found after the call has the old rooms without the
    records of the building, so none of them is left, and the zone found
    after the call still has a record for the squad, in a vector of the
    same length as before, whose flags are all zero. *)
Theorem updateRoomAssignments_revoke alg squad_id civzone_id st
    si squad bi zone_id info room_s room_z :
  squad_find squad_id st = Some (si, squad) →
  strict_virtual_cast_civzonest (building_find civzone_id st)
    = Some (bi, zone_id, info) →
  room_s ∈ sq_rooms squad → building_id room_s = civzone_id →
  rooms_mode room_s ≠ 0 →
  room_z ∈ info → sri_squad_id room_z = squad_id → sri_mode room_z ≠ 0 →
  let st' := updateRoomAssignments alg squad_id civzone_id 0 st in
  ∃ squad' info',
    squad_find squad_id st' = Some (si, squad') ∧
    sq_rooms squad'
      = filter (λ room, building_id room ≠ civzone_id) (sq_rooms squad) ∧
    (∀ room, room ∈ sq_rooms squad' → building_id room ≠ civzone_id) ∧
    find_room civzone_id (sq_rooms squad') = None ∧
    strict_virtual_cast_civzonest (building_find civzone_id st')
      = Some (bi, zone_id, info') ∧
    length info' = length info ∧
    ∃ room, room ∈ info' ∧ sri_squad_id room = squad_id ∧ sri_mode room = 0.
Proof.
  intros Hsquad Hzone Hs Hsid _ Hz Hzid _ st'. subst st'.
  destruct (find_room_elem_of _ _ _ Hs Hsid) as [i Hi].
  destruct (find_room_info_elem_of _ _ _ Hz Hzid) as [j Hj].
  rewrite (updateRoomAssignments_found _ _ _ _ _ _ _ _ _ _ Hsquad Hzone).
  rewrite decide_False by (rewrite Hi; intros (_ & ? & _); done).
  exists (set_sq_rooms (rooms_sync alg civzone_id 0 (sq_rooms squad)) squad),
         (info_sync alg squad_id 0 info).
  cbn [sq_rooms set_sq_rooms].
  rewrite (rooms_sync_revoke _ _ _ i) by done.
  rewrite (info_sync_present _ _ _ _ j) by done.
  split; [by apply squad_find_store|]. split; [done|].
  split; [by intros room [? _]%list_elem_of_filter|].
  split; [apply find_room_None; by intros room [? _]%list_elem_of_filter|].
  split; [by eapply zone_find_store|].
  split; [by rewrite length_alter|].
  apply find_room_info_Some in Hj as (room & _ & Hroom & Hid).
  exists (set_sri_mode 0 room). split_and!; [|done..].
  apply (list_elem_of_lookup_2 _ j). by rewrite list_lookup_alter_eq, Hroom.
Qed.

Lemma updateRoomAssignments_revoke_witness :
  ∃ squad' info',
    squad_find 42
      (updateRoomAssignments merge_sort_algorithm 42 4 0 example_sorted_registry)
      = Some (2%nat, squad') ∧
    sq_rooms squad' = [ {| building_id := 7; rooms_mode := 1 |} ] ∧
    strict_virtual_cast_civzonest
      (building_find 4
         (updateRoomAssignments merge_sort_algorithm 42 4 0 example_sorted_registry))
      = Some (0%nat, 4, info') ∧
    length info' = 2%nat ∧
    ∃ room, room ∈ info' ∧ sri_squad_id room = 42 ∧ sri_mode room = 0.
Proof.
  destruct (updateRoomAssignments_revoke merge_sort_algorithm 42 4
              example_sorted_registry 2%nat
              (example_squad 42 ""
                 [ {| building_id := 4; rooms_mode := 1 |};
                   {| building_id := 7; rooms_mode := 1 |} ])
              0%nat 4
              [ {| sri_squad_id := 41; sri_mode := 1 |};
                {| sri_squad_id := 42; sri_mode := 1 |} ]
              {| building_id := 4; rooms_mode := 1 |}
              {| sri_squad_id := 42; sri_mode := 1 |})
    as (squad' & info' & Hs & Hrooms & _ & _ & Hz & Hlen & Hroom).
  - reflexivity.
  - reflexivity.
  - apply list_elem_of_In. simpl. left. reflexivity.
  - reflexivity.
  - simpl. lia.
  - apply list_elem_of_In. simpl. right. left. reflexivity.
  - reflexivity.
  - simpl. lia.
  - exists squad', info'. split; [exact Hs|]. split; [exact Hrooms|].
    split; [exact Hz|]. split; [exact Hlen|]. exact Hroom.
Defined.

(** C10.  All-zero flags, a squad that has a room record for the building
    and a zone that has no record for the squad: the call pushes a record
    with all-zero flags on the zone's vector and sorts it by squad id, and
    erases every record of the building from the squad's vector.  The
    zone's record, with flags zero, is all that is left of the pair. *)
Theorem updateRoomAssignments_revoke_one_sided alg squad_id civzone_id st
    si squad bi zone_id info room_s :
  squad_find squad_id st = Some (si, squad) →
  strict_virtual_cast_civzonest (building_find civzone_id st)
    = Some (bi, zone_id, info) →
  room_s ∈ sq_rooms squad → building_id room_s = civzone_id →
  (∀ room, room ∈ info → sri_squad_id room ≠ squad_id) →
  let st' := updateRoomAssignments alg squad_id civzone_id 0 st in
  ∃ squad' info',
    squad_find squad_id st' = Some (si, squad') ∧
    sq_rooms squad'
      = filter (λ room, building_id room ≠ civzone_id) (sq_rooms squad) ∧
    (∀ room, room ∈ sq_rooms squad' → building_id room ≠ civzone_id) ∧
    find_room civzone_id (sq_rooms squad') = None ∧
    strict_virtual_cast_civzonest (building_find civzone_id st')
      = Some (bi, zone_id, info') ∧
    info' ≡ₚ info ++ [ {| sri_squad_id := squad_id; sri_mode := 0 |} ] ∧
    Sorted (key_le sri_squad_id) info' ∧
    (∀ room, room ∈ info' → sri_squad_id room = squad_id →
       room = {| sri_squad_id := squad_id; sri_mode := 0 |}).
Proof.
  intros Hsquad Hzone Hs Hsid Hnone st'. subst st'.
  destruct (find_room_elem_of _ _ _ Hs Hsid) as [i Hi].
  apply find_room_info_None in Hnone as Hj.
  rewrite (updateRoomAssignments_found _ _ _ _ _ _ _ _ _ _ Hsquad Hzone).
  rewrite decide_False by (rewrite Hi; intros (_ & ? & _); done).
  exists (set_sq_rooms (rooms_sync alg civzone_id 0 (sq_rooms squad)) squad),
         (info_sync alg squad_id 0 info).
  cbn [sq_rooms set_sq_rooms].
  rewrite (rooms_sync_revoke _ _ _ i) by done.
  destruct (info_sync_absent alg squad_id 0 info Hj) as [Hperm Hsorted].
  split; [by apply squad_find_store|]. split; [done|].
  split; [by intros room [? _]%list_elem_of_filter|].
  split; [apply find_room_None; by intros room [? _]%list_elem_of_filter|].
  split; [by eapply zone_find_store|].
  split; [done|]. split; [done|].
  intros room Hroom Hid. rewrite Hperm in Hroom.
  apply elem_of_app in Hroom as [Hroom|Hroom%list_elem_of_singleton]; [|done].
  by destruct (Hnone room Hroom).
Qed.

Lemma updateRoomAssignments_revoke_one_sided_witness :
  ∃ squad' info',
    squad_find 40
      (updateRoomAssignments merge_sort_algorithm 40 7 0 example_sorted_registry)
      = Some (0%nat, squad') ∧
    sq_rooms squad' = [] ∧
    strict_virtual_cast_civzonest
      (building_find 7
         (updateRoomAssignments merge_sort_algorithm 40 7 0 example_sorted_registry))
      = Some (3%nat, 7, info') ∧
    info' ≡ₚ [ {| sri_squad_id := 42; sri_mode := 1 |};
               {| sri_squad_id := 40; sri_mode := 0 |} ] ∧
    Sorted (key_le sri_squad_id) info'.
Proof.
  destruct (updateRoomAssignments_revoke_one_sided merge_sort_algorithm 40 7
              example_sorted_registry 0%nat
              (example_squad 40 "" [ {| building_id := 7; rooms_mode := 1 |} ])
              3%nat 7 [ {| sri_squad_id := 42; sri_mode := 1 |} ]
              {| building_id := 7; rooms_mode := 1 |})
    as (squad' & info' & Hs & Hrooms & _ & _ & Hz & Hperm & Hsorted & _).
  - reflexivity.
  - reflexivity.
  - apply list_elem_of_In. simpl. left. reflexivity.
  - reflexivity.
  - intros room Hroom. apply list_elem_of_In in Hroom. simpl in Hroom.
    destruct Hroom as [<-|[]]. simpl. lia.
  - exists squad', info'. split; [exact Hs|]. split; [exact Hrooms|].
    split; [exact Hz|]. split; [exact Hperm|]. exact Hsorted.
Defined.

(** ** C8: nothing to do *)

(** C8.  [updateRoomAssignments] leaves the state as it is when the squad
    id resolves to no squad, when the building id resolves to no building
    or to one that is not a civilian zone, and when the flags are all zero
    and neither side has a record of the pair. *)
Theorem updateRoomAssignments_no_op alg squad_id civzone_id flags st :
  nothing_to_update squad_id civzone_id flags st →
  updateRoomAssignments alg squad_id civzone_id flags st = st.
Proof.
  intros [Hsquad | Hb | bi id Hb | si squad bi zone_id info -> Hsquad Hzone Hs Hz].
  - unfold updateRoomAssignments. by rewrite Hsquad.
  - unfold updateRoomAssignments. rewrite Hb. simpl.
    by destruct (squad_find squad_id st) as [[??]|].
  - unfold updateRoomAssignments. rewrite Hb. simpl.
    by destruct (squad_find squad_id st) as [[??]|].
  - rewrite (updateRoomAssignments_found _ _ _ _ _ _ _ _ _ _ Hsquad Hzone).
    apply find_room_None in Hs. apply find_room_info_None in Hz.
    by rewrite decide_True.
Qed.

Lemma updateRoomAssignments_no_op_witness :
  updateRoomAssignments merge_sort_algorithm 99 4 3 example_registry
    = example_registry ∧
  updateRoomAssignments merge_sort_algorithm 40 99 3 example_registry
    = example_registry ∧
  updateRoomAssignments merge_sort_algorithm 40 5 3 example_registry
    = example_registry ∧
  updateRoomAssignments merge_sort_algorithm 40 6 0 example_registry
    = example_registry.
Proof.
  split_and!; apply updateRoomAssignments_no_op.
  - apply unknown_squad. reflexivity.
  - apply unknown_building. reflexivity.
  - apply (not_a_civzone 40 5 3 example_registry 1%nat 5). reflexivity.
  - apply (no_association 40 6 0 example_registry 0%nat (example_squad 40 "" [])
             2%nat 6 []); [reflexivity..| |].
    + intros room Hroom. apply list_elem_of_In in Hroom. destruct Hroom.
    + intros room Hroom. apply list_elem_of_In in Hroom. destruct Hroom.
Defined.


(** * Further properties of [makeSquad] *)

(** ** The blocks of the schedule *)

(** A slot the three mode-only branches leave: the two modes, no order, and
    the cells the allocation gave it. *)
Lemma fill_asched_off_duty st next_id squad_size :
  fill_asched st next_id squad_size "Off duty" (allocate_asched squad_size)
  = inr (replicate 12
           (set_uniform_mode 1 (set_sleep_mode 0 (blank_entry squad_size)))).
Proof. rewrite allocate_asched_blank. reflexivity. Qed.

Lemma fill_asched_ready st next_id squad_size :
  fill_asched st next_id squad_size "Ready" (allocate_asched squad_size)
  = inr (replicate 12
           (set_uniform_mode 0 (set_sleep_mode 2 (blank_entry squad_size)))).
Proof. rewrite allocate_asched_blank. reflexivity. Qed.

Lemma fill_asched_default st next_id squad_size name :
  name ≠ "Off duty" → name ≠ "Staggered training" →
  name ≠ "Constant training" → name ≠ "Ready" →
  fill_asched st next_id squad_size name (allocate_asched squad_size)
  = inr (replicate 12
           (set_uniform_mode 0 (set_sleep_mode 0 (blank_entry squad_size)))).
Proof.
  intros H1 H2 H3 H4. rewrite allocate_asched_blank. unfold fill_asched.
  rewrite !decide_False by done. reflexivity.
Qed.

(** Whatever the routine, a block that is built has 12 slots, each with one
    cell of value -1 per position and at most one order. *)
Lemma fill_asched_shape st next_id squad_size name asched :
  fill_asched st next_id squad_size name (allocate_asched squad_size) = inr asched →
  length asched = 12%nat ∧
  ∀ m e, asched !! m = Some e →
    order_assignments e = replicate (Z.to_nat squad_size) (-1) ∧
    (length (orders e) ≤ 1)%nat.
Proof.
  intros Hfill.
  destruct (decide (name = "Off duty")) as [->|H1].
  { rewrite fill_asched_off_duty in Hfill. simplify_eq. split; [done|].
    intros m e [-> _]%lookup_replicate. simpl. split; [done|lia]. }
  destruct (decide (name = "Ready")) as [->|H4].
  { rewrite fill_asched_ready in Hfill. simplify_eq. split; [done|].
    intros m e [-> _]%lookup_replicate. simpl. split; [done|lia]. }
  destruct (decide (name = "Constant training")) as [->|H3].
  { rewrite allocate_asched_blank in Hfill.
    apply fill_asched_constant_inr in Hfill as (_ & y & t & _ & _ & Hfill).
    apply constant_block in Hfill as ->. split; [done|].
    intros m e [-> _]%lookup_replicate. simpl. split; [done|lia]. }
  destruct (decide (name = "Staggered training")) as [->|H2].
  { rewrite allocate_asched_blank in Hfill.
    apply fill_asched_staggered_inr in Hfill as (_ & y & t & _ & _ & Hfill).
    apply staggered_block in Hfill as (Hlen & Hslots). split; [done|].
    intros m e Hm. destruct (Hslots m e Hm) as [Hin Hout].
    destruct (decide (m ∈ staggered_months next_id)) as [Hm'|Hm'].
    - rewrite (Hin Hm'). simpl. split; [done|lia].
    - rewrite (Hout Hm'). simpl. split; [done|lia]. }
  rewrite fill_asched_default in Hfill by done. simplify_eq. split; [done|].
  intros m e [-> _]%lookup_replicate. simpl. split; [done|lia].
Qed.

Lemma make_schedule_length st next_id squad_size routines acc schedule :
  make_schedule st next_id squad_size routines acc = inr schedule →
  length schedule = (length acc + length routines)%nat.
Proof.
  intros (blocks & -> & HF)%make_schedule_inr.
  rewrite length_app. by rewrite (Forall2_length _ _ _ HF).
Qed.

(** The blocks of the routines that attach no order: "Off duty" sleeps at
    will in uniform-mode 1, "Ready" stays at the ready (sleep-mode 2,
    uniform-mode 0), any name the dispatch does not know gets 0 and 0; no
    slot of theirs holds an order. *)
Theorem makeSquad_mode_routines assignment_id st s st' pi k rt :
  makeSquad assignment_id st = Returned (Some s) st' →
  plotinfo st = Some pi →
  alerts_routines pi !! k = Some rt →
  ¬ training_name (routine_name rt) →
  ∃ asched sleep uniform,
    sq_schedule s !! k = Some asched ∧
    length asched = 12%nat ∧
    (routine_name rt = "Off duty" → sleep = 0 ∧ uniform = 1) ∧
    (routine_name rt = "Ready" → sleep = 2 ∧ uniform = 0) ∧
    (routine_name rt ≠ "Off duty" → routine_name rt ≠ "Ready" →
       sleep = 0 ∧ uniform = 0) ∧
    ∀ m e, asched !! m = Some e →
      sleep_mode e = sleep ∧ uniform_mode e = uniform ∧ orders e = [].
Proof.
  intros H Hpi Hk Hname.
  destruct (makeSquad_Some_inv _ _ _ _ H) as (r & schedule & Hr & Hsched & Hs & _).
  destruct Hr as (_ & Hpi' & _). simplify_eq.
  destruct (make_schedule_block _ _ _ _ _ _ _ Hsched Hk) as (asched & Hblock & Hfill).
  unfold training_name in Hname.
  destruct (decide (routine_name rt = "Off duty")) as [Hn|H1].
  { rewrite Hn, fill_asched_off_duty in Hfill. simplify_eq.
    exists (replicate 12
              (set_uniform_mode 1 (set_sleep_mode 0 (blank_entry (res_squad_size r))))),
           0, 1.
    split_and!; try done; try (intros; congruence).
    by intros m e [-> _]%lookup_replicate. }
  destruct (decide (routine_name rt = "Ready")) as [Hn|H4].
  { rewrite Hn, fill_asched_ready in Hfill. simplify_eq.
    exists (replicate 12
              (set_uniform_mode 0 (set_sleep_mode 2 (blank_entry (res_squad_size r))))),
           2, 0.
    split_and!; try done; try (intros; congruence).
    by intros m e [-> _]%lookup_replicate. }
  rewrite fill_asched_default in Hfill by tauto. simplify_eq.
  exists (replicate 12
            (set_uniform_mode 0 (set_sleep_mode 0 (blank_entry (res_squad_size r))))),
         0, 0.
  split_and!; try done; try (intros; congruence).
  by intros m e [-> _]%lookup_replicate.
Qed.

Lemma makeSquad_mode_routines_witness :
  ∃ s st' asched,
    makeSquad 11 (example_state 5 3 example_routines) = Returned (Some s) st' ∧
    sq_schedule s !! 3%nat = Some asched ∧
    length asched = 12%nat ∧
    ∀ m e, asched !! m = Some e →
      sleep_mode e = 2 ∧ uniform_mode e = 0 ∧ orders e = [].
Proof.
  destruct (makeSquad 11 (example_state 5 3 example_routines))
    as [[s|] st'|f st1] eqn:E; [|vm_compute in E; discriminate E..].
  destruct (makeSquad_mode_routines 11 (example_state 5 3 example_routines)
              s st' {| group_id := 7; alerts_routines := example_routines |}
              3%nat {| routine_name := "Ready" |})
    as (asched & sleep & uniform & Hk & Hlen & _ & Hready & _ & Hslots).
  - exact E.
  - reflexivity.
  - reflexivity.
  - simpl. intros [Hn|Hn]; discriminate Hn.
  - destruct (Hready eq_refl) as [-> ->].
    exists s, st', asched. split; [reflexivity|]. split; [exact Hk|].
    split; [exact Hlen|]. exact Hslots.
Defined.

(** The schedule has one block per alert routine, in the routines' order;
    every block has 12 slots, and every slot one assignment cell of value
    -1 per position slot of the squad and one order at most. *)
Theorem makeSquad_schedule_shape assignment_id st s st' pi :
  makeSquad assignment_id st = Returned (Some s) st' →
  plotinfo st = Some pi →
  length (sq_schedule s) = length (alerts_routines pi) ∧
  ∀ k asched, sq_schedule s !! k = Some asched →
    length asched = 12%nat ∧
    ∀ m e, asched !! m = Some e →
      order_assignments e = replicate (length (sq_positions s)) (-1) ∧
      (length (orders e) ≤ 1)%nat.
Proof.
  intros H Hpi.
  destruct (makeSquad_Some_inv _ _ _ _ H) as (r & schedule & Hr & Hsched & Hs & _).
  destruct Hr as (_ & Hpi' & _). simplify_eq.
  split; [by apply make_schedule_length in Hsched|].
  intros k asched Hk. simpl in Hk.
  assert (is_Some (alerts_routines (res_plotinfo r) !! k)) as [rt Hrt].
  { apply lookup_lt_is_Some. apply lookup_lt_Some in Hk.
    apply make_schedule_length in Hsched. simpl in Hsched. lia. }
  destruct (make_schedule_block _ _ _ _ _ _ _ Hsched Hrt) as (b & Hb & Hfill).
  simplify_eq. simpl. rewrite make_positions_length.
  by apply fill_asched_shape in Hfill.
Qed.

Lemma makeSquad_schedule_shape_witness :
  ∃ s st',
    makeSquad 11 (example_state 5 3 example_routines) = Returned (Some s) st' ∧
    length (sq_schedule s) = 5%nat ∧
    ∀ k asched, sq_schedule s !! k = Some asched →
      length asched = 12%nat ∧
      ∀ m e, asched !! m = Some e →
        order_assignments e = replicate (length (sq_positions s)) (-1) ∧
        (length (orders e) ≤ 1)%nat.
Proof.
  destruct (makeSquad 11 (example_state 5 3 example_routines))
    as [[s|] st'|f st1] eqn:E; [|vm_compute in E; discriminate E..].
  exists s, st'. split; [reflexivity|].
  exact (makeSquad_schedule_shape 11 (example_state 5 3 example_routines) s st'
           {| group_id := 7; alerts_routines := example_routines |} E eq_refl).
Defined.

(** ** The squad and the state a call leaves *)

Lemma squad_name_value :
  squad_name = {| ln_type := Squad; ln_words := replicate 7 (-1);
                  ln_parts_of_speech := replicate 7 Noun |}.
Proof. reflexivity. Qed.

(** The fields of a new squad: no alias and no room; a name of kind Squad
    with 7 words -1, all nouns; the first routine current; a uniform
    priority one above the id, as an [int32_t]; the settlement entity, the
    leader position and the assignment the call was made for; and position
    slots with all flags clear. *)
Theorem makeSquad_squad_fields assignment_id st s st' r :
  makeSquad assignment_id st = Returned (Some s) st' →
  resolves assignment_id st r →
  sq_alias s = "" ∧ sq_rooms s = [] ∧
  ln_type (sq_name s) = Squad ∧
  ln_words (sq_name s) = replicate 7 (-1) ∧
  ln_parts_of_speech (sq_name s) = replicate 7 Noun ∧
  sq_cur_routine_idx s = 0 ∧
  sq_uniform_priority s = wrap32 (sq_id s + 1) ∧
  sq_activity s = -1 ∧ sq_carry_food s = 2 ∧ sq_carry_water s = 1 ∧
  sq_ammo_update s = 0 ∧
  sq_entity_id s = he_id (res_fort r) ∧
  sq_leader_assignment s = assignment_id ∧
  sq_leader_position s = epa_position_id (res_assignment r) ∧
  sq_positions s = replicate (Z.to_nat (res_squad_size r)) {| sp_flags_whole := 0 |}.
Proof.
  intros H Hr.
  destruct (makeSquad_Some_inv _ _ _ _ H) as (r' & schedule & Hr' & Hsched & Hs & _).
  assert (r' = r) as -> by eauto using resolves_unique.
  destruct Hr as (_ & _ & Hfort & Hasg & _ & pj & Hpos).
  apply list_find_Some in Hfort as (_ & Hfort & _).
  apply list_find_Some in Hasg as (_ & Hasg & _).
  apply list_find_Some in Hpos as (_ & Hpos & _).
  rewrite Hs. simpl. split_and!; try done.
  unfold make_positions. apply for_range_push_replicate.
Qed.

Lemma makeSquad_squad_fields_witness :
  ∃ s st',
    makeSquad 11 (example_state 5 3 example_routines) = Returned (Some s) st' ∧
    sq_uniform_priority s = 6 ∧ sq_entity_id s = 7 ∧
    sq_leader_assignment s = 11 ∧ sq_leader_position s = 3 ∧
    sq_positions s = replicate 3 {| sp_flags_whole := 0 |}.
Proof.
  destruct (makeSquad 11 (example_state 5 3 example_routines))
    as [[s|] st'|f st1] eqn:E; [|vm_compute in E; discriminate E..].
  destruct (makeSquad_squad_fields 11 (example_state 5 3 example_routines) s st'
              example_resolution E)
    as (_ & _ & _ & _ & _ & _ & Hprio & _ & _ & _ & _ & Hent & Hasg & Hpos & Hslots).
  { unfold resolves. simpl. split_and!; try reflexivity. by exists 1%nat. }
  exists s, st'. split; [reflexivity|].
  assert (sq_id s = 5) as Hid.
  { vm_compute in E. injection E as <- _. reflexivity. }
  rewrite Hid in Hprio.
  split; [exact Hprio|]. split; [exact Hent|]. split; [exact Hasg|].
  split; [exact Hpos|]. exact Hslots.
Defined.

(** The state after a successful call, in full. *)
Lemma makeSquad_state_after assignment_id st s st' r :
  makeSquad assignment_id st = Returned (Some s) st' →
  resolves assignment_id st r →
  ∃ w, world st = Some w ∧ sq_id s = res_next_id r ∧
    st' = {| squad_next_id := Some (wrap32 (res_next_id r + 1));
             plotinfo := plotinfo st;
             cur_year := cur_year st;
             cur_year_tick := cur_year_tick st;
             world := Some {| squads_all := squads_all w ++ [s] |};
             entities := <[res_fort_index r := fort_after r (sq_id s)]> (entities st);
             buildings := buildings st |}.
Proof.
  intros H Hr.
  destruct (makeSquad_Some_inv _ _ _ _ H) as (r' & schedule & Hr' & Hsched & Hs & Hc).
  assert (r' = r) as -> by eauto using resolves_unique.
  destruct (commit_Returned _ _ _ _ _ _ _ Hc) as (w & Hw & _ & ->).
  exists w. split; [done|]. split; [by rewrite Hs|].
  destruct Hr as (_ & _ & Hfort & _).
  apply list_find_Some in Hfort as (Hfort & _).
  unfold bind_assignment, push_world_squad, push_fort_squad,
    increment_squad_next_id, set_entities, set_world, set_squad_next_id.
  simpl. f_equal.
  rewrite list_alter_alter_eq, list_insert_alter.
  apply list_alter_ext; [|done]. intros fort Hfort'. by simplify_eq.
Qed.

(** What a successful call leaves alone: the settlement's configuration,
    the clock, the buildings, every other entity, the squads the registry
    already had, and, of the settlement entity, its id, its positions and
    every assignment but the one bound, which keeps its id and position. *)
Theorem makeSquad_frame assignment_id st s st' r :
  makeSquad assignment_id st = Returned (Some s) st' →
  resolves assignment_id st r →
  plotinfo st' = plotinfo st ∧
  cur_year st' = cur_year st ∧ cur_year_tick st' = cur_year_tick st ∧
  buildings st' = buildings st ∧
  length (entities st') = length (entities st) ∧
  (∀ j, j ≠ res_fort_index r → entities st' !! j = entities st !! j) ∧
  (∀ w w' j old, world st = Some w → world st' = Some w' →
     squads_all w !! j = Some old → squads_all w' !! j = Some old) ∧
  ∃ fort',
    entities st' !! res_fort_index r = Some fort' ∧
    he_id fort' = he_id (res_fort r) ∧
    he_positions_own fort' = he_positions_own (res_fort r) ∧
    length (he_positions_assignments fort')
      = length (he_positions_assignments (res_fort r)) ∧
    (∀ j, j ≠ res_assignment_index r →
       he_positions_assignments fort' !! j
       = he_positions_assignments (res_fort r) !! j) ∧
    ∃ a', he_positions_assignments fort' !! res_assignment_index r = Some a' ∧
          epa_id a' = assignment_id ∧
          epa_position_id a' = epa_position_id (res_assignment r).
Proof.
  intros H Hr.
  destruct (makeSquad_state_after _ _ _ _ _ H Hr) as (w & Hw & Hid & ->).
  destruct Hr as (_ & _ & Hfort & Hasg & _).
  apply list_find_Some in Hfort as (Hfort & _).
  apply list_find_Some in Hasg as (Hasg & Haid & _).
  simpl. split_and!; try done.
  - by rewrite length_insert.
  - intros j Hj. by rewrite list_lookup_insert_ne.
  - intros w0 w' j old Hw0 [= <-] Hold. simplify_eq. simpl.
    by apply lookup_app_l_Some.
  - exists (fort_after r (sq_id s)). split_and!.
    + apply list_lookup_insert_eq. eauto using lookup_lt_Some.
    + done.
    + done.
    + simpl. by rewrite length_alter.
    + intros j Hj. simpl. by rewrite list_lookup_alter_ne.
    + exists (set_epa_squad_id (sq_id s) (res_assignment r)).
      simpl. by rewrite list_lookup_alter_eq, Hasg.
Qed.

Lemma makeSquad_frame_witness :
  ∃ s st',
    makeSquad 11 (example_state 5 3 example_routines) = Returned (Some s) st' ∧
    plotinfo st' = plotinfo (example_state 5 3 example_routines) ∧
    buildings st' = buildings (example_state 5 3 example_routines) ∧
    entities st' !! 0%nat = entities (example_state 5 3 example_routines) !! 0%nat.
Proof.
  destruct (makeSquad 11 (example_state 5 3 example_routines))
    as [[s|] st'|f st1] eqn:E; [|vm_compute in E; discriminate E..].
  destruct (makeSquad_frame 11 (example_state 5 3 example_routines) s st'
              example_resolution E)
    as (Hpi & _ & _ & Hb & _ & Hother & _).
  { unfold resolves. simpl. split_and!; try reflexivity. by exists 1%nat. }
  exists s, st'. split; [reflexivity|]. split; [exact Hpi|]. split; [exact Hb|].
  apply Hother. discriminate.
Defined.

(** ** A second call *)

(** What the searches of the call find in the state a first call left. *)
Lemma makeSquad_after_lookup assignment_id st s st' r :
  makeSquad assignment_id st = Returned (Some s) st' →
  resolves assignment_id st r →
  squad_next_id st' = Some (wrap32 (res_next_id r + 1)) ∧
  plotinfo st' = Some (res_plotinfo r) ∧
  historical_entity_find (group_id (res_plotinfo r)) st'
    = Some (res_fort_index r, fort_after r (sq_id s)) ∧
  list_find (λ a, epa_id a = assignment_id)
    (he_positions_assignments (fort_after r (sq_id s)))
    = Some (res_assignment_index r, set_epa_squad_id (sq_id s) (res_assignment r)).
Proof.
  intros H Hr.
  destruct (makeSquad_state_after _ _ _ _ _ H Hr) as (w & Hw & Hid & ->).
  destruct Hr as (_ & Hpi & Hfort & Hasg & _).
  simpl. split_and!; [done|done| |].
  - unfold historical_entity_find in *. simpl.
    apply (list_find_insert_same _ _ _ _ _ Hfort).
    apply list_find_Some in Hfort as (_ & ? & _). done.
  - simpl.
    by apply (list_find_key_alter epa_id set_epa_squad_id (λ _ _, eq_refl)).
Qed.

(** A second call for the same assignment, right after a successful one,
    returns no squad and writes nothing: the assignment is bound.  The
    counter must not have stood at -1, the value that marks a free
    assignment. *)
Theorem makeSquad_again assignment_id st s st' :
  makeSquad assignment_id st = Returned (Some s) st' →
  squad_next_id st ≠ Some (-1) →
  makeSquad assignment_id st' = Returned None st'.
Proof.
  intros H Hn.
  destruct (makeSquad_Some_inv _ _ _ _ H) as (r & schedule & Hr & _ & Hs & _).
  destruct (makeSquad_after_lookup _ _ _ _ _ H Hr) as (Hn' & Hpi' & Hfort' & Hasg').
  unfold makeSquad. rewrite Hn', Hpi', Hfort', Hasg'.
  rewrite decide_True; [done|].
  simpl. rewrite Hs. simpl. destruct Hr as (Hn0 & _).
  intros Heq. apply Hn. by rewrite Hn0, Heq.
Qed.

Lemma makeSquad_again_witness :
  ∃ s st',
    makeSquad 11 (example_state 5 3 example_routines) = Returned (Some s) st' ∧
    makeSquad 11 st' = Returned None st'.
Proof.
  destruct (makeSquad 11 (example_state 5 3 example_routines))
    as [[s|] st'|f st1] eqn:E; [|vm_compute in E; discriminate E..].
  exists s, st'. split; [reflexivity|].
  apply (makeSquad_again 11 (example_state 5 3 example_routines) s st' E).
  discriminate.
Defined.

(** Whether the schedule gets built depends on the squad size, the routines
    and the clock, not on the counter. *)
Lemma fill_asched_again st st' next_id next_id' squad_size name asched b :
  cur_year st' = cur_year st → cur_year_tick st' = cur_year_tick st →
  fill_asched st next_id squad_size name asched = inr b →
  ∃ b', fill_asched st' next_id' squad_size name asched = inr b'.
Proof.
  intros Hy Ht Hfill.
  destruct (decide (training_name name)) as [Hname|Hname];
    [|by apply fill_asched_other].
  assert (0 ≤ squad_size ∧ ∃ y t, cur_year st = Some y ∧ cur_year_tick st = Some t)
    as (HN & y & t & Hy' & Ht').
  { destruct Hname as [-> | ->].
    - apply fill_asched_staggered_inr in Hfill as (? & y & t & ? & ? & _). eauto.
    - apply fill_asched_constant_inr in Hfill as (? & y & t & ? & ? & _). eauto. }
  apply (fill_asched_ok _ _ _ _ _ y t); congruence.
Qed.

Lemma make_schedule_again st st' next_id next_id' squad_size routines acc acc' sched :
  cur_year st' = cur_year st → cur_year_tick st' = cur_year_tick st →
  make_schedule st next_id squad_size routines acc = inr sched →
  ∃ sched', make_schedule st' next_id' squad_size routines acc' = inr sched'.
Proof.
  intros Hy Ht. revert acc acc'.
  induction routines as [|rt rest IH]; intros acc acc' H; simpl in *; [eauto|].
  destruct (fill_asched st next_id squad_size (routine_name rt)
              (allocate_asched squad_size)) as [f|b] eqn:E; [done|].
  destruct (fill_asched_again st st' next_id next_id' _ _ _ _ Hy Ht E) as [b' ->].
  simpl in *. eauto.
Qed.

(** The counter at -1: the squad gets id -1, the assignment is "bound" to
    -1, which reads as free, and a second call for the same assignment
    makes a second squad, with id 0, for it. *)
Theorem makeSquad_again_at_minus_one assignment_id st s st' :
  makeSquad assignment_id st = Returned (Some s) st' →
  squad_next_id st = Some (-1) →
  sq_id s = -1 ∧
  ∃ s2 st2,
    makeSquad assignment_id st' = Returned (Some s2) st2 ∧
    sq_id s2 = 0 ∧
    sq_leader_assignment s2 = sq_leader_assignment s.
Proof.
  intros H Hn.
  destruct (makeSquad_Some_inv _ _ _ _ H) as (r & schedule & Hr & Hsched & Hs & _).
  destruct (makeSquad_after_lookup _ _ _ _ _ H Hr) as (Hn' & Hpi' & Hfort' & Hasg').
  destruct (makeSquad_state_after _ _ _ _ _ H Hr) as (w & Hw & Hid & Hst').
  pose proof Hr as (Hn0 & _ & _ & _ & _ & pj & Hpos).
  assert (res_next_id r = -1) as Hminus by congruence.
  split; [congruence|].
  assert (resolves assignment_id st' (resolution_after r (sq_id s))) as Hr'.
  { unfold resolves. simpl. split_and!; try done.
    - congruence.
    - by exists pj. }
  rewrite (makeSquad_resolved _ _ _ Hr').
  destruct (make_schedule_again st st' (res_next_id r)
              (wrap32 (res_next_id r + 1)) (res_squad_size r)
              (alerts_routines (res_plotinfo r)) [] [] schedule)
    as [sched' Hsched']; [by rewrite Hst'..|done|].
  unfold res_schedule. simpl. unfold res_squad_size in *. simpl.
  rewrite Hsched'. unfold commit. simpl.
  assert (world st' = Some {| squads_all := squads_all w ++ [s] |}) as ->
    by (by rewrite Hst').
  eexists _, _. split; [reflexivity|]. simpl.
  rewrite Hminus. split; [reflexivity|]. by rewrite Hs.
Qed.

Lemma makeSquad_again_at_minus_one_witness :
  ∃ s st' s2 st2,
    makeSquad 11 (example_state (-1) 3 example_routines) = Returned (Some s) st' ∧
    sq_id s = -1 ∧
    makeSquad 11 st' = Returned (Some s2) st2 ∧
    sq_id s2 = 0 ∧ sq_leader_assignment s2 = sq_leader_assignment s.
Proof.
  destruct (makeSquad 11 (example_state (-1) 3 example_routines))
    as [[s|] st'|f st1] eqn:E; [|vm_compute in E; discriminate E..].
  destruct (makeSquad_again_at_minus_one 11 (example_state (-1) 3 example_routines)
              s st' E eq_refl)
    as (Hid & s2 & st2 & H2 & Hid2 & Hasg).
  exists s, st', s2, st2. split; [reflexivity|]. split; [exact Hid|].
  split; [exact H2|]. split; [exact Hid2|exact Hasg].
Defined.

(** ** The name of the new squad *)

(** The new squad has no alias: in the state a successful call leaves,
    whenever the id resolves to the new squad, [getSquadName] answers what
    the translation service makes of the empty squad name, with 7 words -1,
    and leaves the state as it is. *)
Theorem makeSquad_then_getSquadName
    (TranslateName : language_name → bool → string) assignment_id st s st' i :
  makeSquad assignment_id st = Returned (Some s) st' →
  squad_find (sq_id s) st' = Some (i, s) →
  getSquadName TranslateName (sq_id s) st'
  = (TranslateName
       {| ln_type := Squad; ln_words := replicate 7 (-1);
          ln_parts_of_speech := replicate 7 Noun |} true, st').
Proof.
  intros H Hfind.
  destruct (makeSquad_Some_inv _ _ _ _ H) as (r & schedule & _ & _ & Hs & _).
  unfold getSquadName. rewrite Hfind. rewrite Hs. reflexivity.
Qed.

Lemma makeSquad_then_getSquadName_witness :
  ∃ s st',
    makeSquad 11 (example_state 45 3 example_routines) = Returned (Some s) st' ∧
    getSquadName example_translate (sq_id s) st' = ("The Squad", st').
Proof.
  destruct (makeSquad 11 (example_state 45 3 example_routines))
    as [[s|] st'|f st1] eqn:E; [|vm_compute in E; discriminate E..].
  exists s, st'. split; [reflexivity|].
  apply (makeSquad_then_getSquadName example_translate 11
           (example_state 45 3 example_routines) s st' 1%nat E).
  vm_compute in E. injection E as <- <-. reflexivity.
Defined.

(** ** Squads made one after the other *)

Lemma wrap32_odd (z : Z) : Z.odd (wrap32 z) = Z.odd z.
Proof.
  unfold wrap32. rewrite Z.mod_eq by lia.
  replace (z + 2 ^ 31 - 2 ^ 32 * ((z + 2 ^ 31) `div` 2 ^ 32) - 2 ^ 31)
    with (z + 2 * (- 2 ^ 31 * ((z + 2 ^ 31) `div` 2 ^ 32))) by lia.
  apply Z.odd_add_mul_2.
Qed.

(** Membership of a given month in a given list of months. *)
Ltac month_in := solve [apply list_elem_of_In; simpl; auto 12].
Ltac month_not_in H :=
  solve [exfalso; apply list_elem_of_In in H; simpl in H; intuition discriminate].

Lemma staggered_months_succ (next_id : Z) (m : nat) :
  (m < 12)%nat →
  m ∈ staggered_months (wrap32 (next_id + 1)) ↔ m ∉ staggered_months next_id.
Proof.
  intros Hm. unfold staggered_months.
  rewrite wrap32_odd, Z.odd_add. change (Z.odd 1) with true.
  destruct (Z.odd next_id); simpl;
    do 12 (destruct m as [|m];
           [split;
            [ intros Hin Hin'; first [month_not_in Hin | month_not_in Hin']
            | intros Hout; first [month_in | exfalso; apply Hout; month_in] ]|]);
    lia.
Qed.

(** Two squads made one after the other train in complementary months under
    a routine named "Staggered training": each of the 12 slots holds an
    order in exactly one of the two squads. *)
Theorem makeSquad_alternates assignment_id1 assignment_id2 st s1 st1 s2 st2 pi k rt :
  makeSquad assignment_id1 st = Returned (Some s1) st1 →
  makeSquad assignment_id2 st1 = Returned (Some s2) st2 →
  plotinfo st = Some pi →
  alerts_routines pi !! k = Some rt →
  routine_name rt = "Staggered training" →
  ∃ asched1 asched2,
    sq_schedule s1 !! k = Some asched1 ∧ sq_schedule s2 !! k = Some asched2 ∧
    length asched1 = 12%nat ∧ length asched2 = 12%nat ∧
    ∀ m e1 e2, asched1 !! m = Some e1 → asched2 !! m = Some e2 →
      (orders e1 = [] ∧ length (orders e2) = 1%nat) ∨
      (length (orders e1) = 1%nat ∧ orders e2 = []).
Proof.
  intros H1 H2 Hpi Hk Hname.
  destruct (makeSquad_Some_inv _ _ _ _ H1) as (r1 & sched1 & Hr1 & Hsched1 & Hs1 & _).
  destruct (makeSquad_Some_inv _ _ _ _ H2) as (r2 & sched2 & Hr2 & Hsched2 & Hs2 & _).
  destruct (makeSquad_state_after _ _ _ _ _ H1 Hr1) as (w & _ & _ & Hst1).
  assert (res_plotinfo r1 = pi) as Hpi1.
  { destruct Hr1 as (_ & ? & _). congruence. }
  assert (res_plotinfo r2 = pi ∧ res_next_id r2 = wrap32 (res_next_id r1 + 1))
    as [Hpi2 Hn2].
  { destruct Hr2 as (Hn & Hp & _). rewrite Hst1 in Hn, Hp. simpl in *.
    split; congruence. }
  unfold res_schedule in Hsched1, Hsched2. rewrite Hpi1 in Hsched1.
  rewrite Hpi2 in Hsched2.
  destruct (make_schedule_block _ _ _ _ _ _ _ Hsched1 Hk) as (b1 & Hb1 & Hfill1).
  destruct (make_schedule_block _ _ _ _ _ _ _ Hsched2 Hk) as (b2 & Hb2 & Hfill2).
  rewrite Hname, allocate_asched_blank in Hfill1, Hfill2.
  apply fill_asched_staggered_inr in Hfill1 as (_ & y1 & t1 & _ & _ & Hfill1).
  apply fill_asched_staggered_inr in Hfill2 as (_ & y2 & t2 & _ & _ & Hfill2).
  apply staggered_block in Hfill1 as (Hlen1 & Hslots1).
  apply staggered_block in Hfill2 as (Hlen2 & Hslots2).
  exists b1, b2. rewrite Hs1, Hs2. simpl. split_and!; try done.
  intros m e1 e2 Hm1 Hm2.
  destruct (Hslots1 m e1 Hm1) as [Hin1 Hout1].
  destruct (Hslots2 m e2 Hm2) as [Hin2 Hout2].
  assert (m < 12)%nat as Hm by (apply lookup_lt_Some in Hm1; lia).
  rewrite Hn2 in Hin2, Hout2.
  destruct (decide (m ∈ staggered_months (res_next_id r1))) as [Hin|Hout].
  - right. rewrite (Hin1 Hin), Hout2; [done|].
    intros Hin'. by apply staggered_months_succ in Hin'.
  - left. rewrite (Hout1 Hout), Hin2; [done|].
    by apply staggered_months_succ.
Qed.

Lemma makeSquad_alternates_witness :
  ∃ s1 st1 s2 st2 asched1 asched2,
    makeSquad 11 example_state_two_free = Returned (Some s1) st1 ∧
    makeSquad 13 st1 = Returned (Some s2) st2 ∧
    sq_schedule s1 !! 1%nat = Some asched1 ∧
    sq_schedule s2 !! 1%nat = Some asched2 ∧
    ∀ m e1 e2, asched1 !! m = Some e1 → asched2 !! m = Some e2 →
      (orders e1 = [] ∧ length (orders e2) = 1%nat) ∨
      (length (orders e1) = 1%nat ∧ orders e2 = []).
Proof.
  destruct (makeSquad 11 example_state_two_free)
    as [[s1|] st1|f st1] eqn:E1; [|vm_compute in E1; discriminate E1..].
  destruct (makeSquad 13 st1) as [[s2|] st2|f st2] eqn:E2;
    [|vm_compute in E1; injection E1 as <- <-; vm_compute in E2; discriminate E2..].
  destruct (makeSquad_alternates 11 13 example_state_two_free s1 st1 s2 st2
              {| group_id := 7; alerts_routines := example_routines |}
              1%nat {| routine_name := "Staggered training" |}
              E1 E2 eq_refl eq_refl eq_refl)
    as (b1 & b2 & Hb1 & Hb2 & _ & _ & Hslots).
  exists s1, st1, s2, st2, b1, b2.
  split; [reflexivity|]. split; [exact E2|]. split; [exact Hb1|].
  split; [exact Hb2|]. exact Hslots.
Defined.

(** ** Calls that do not return a squad *)

(** A call that stops with a fault has written nothing, with one exception:
    when [world] is the missing pointer the call stops inside the commit,
    after the counter was incremented and the id pushed on the entity's
    [squads], before the registry and the assignment are written. *)
Theorem makeSquad_fault_state assignment_id st f st1 :
  makeSquad assignment_id st = Faulted f st1 →
  st1 = st ∨
  (world st = None ∧ f = NullDereference ∧
   ∃ r, resolves assignment_id st r ∧
     st1 = push_fort_squad (res_fort_index r) (res_next_id r)
             (increment_squad_next_id (res_next_id r) st)).
Proof.
  intros H.
  destruct (squad_next_id st) as [next_id|] eqn:Hn;
    [|unfold makeSquad in H; by rewrite Hn in H].
  destruct (plotinfo st) as [pi|] eqn:Hpi;
    [|unfold makeSquad in H; by rewrite Hn, Hpi in H].
  destruct (historical_entity_find (group_id pi) st) as [[fi fort]|] eqn:Hfort;
    [|unfold makeSquad in H; rewrite Hn, Hpi, Hfort in H; left; by simplify_eq].
  destruct (list_find (λ a, epa_id a = assignment_id)
              (he_positions_assignments fort)) as [[ai asg]|] eqn:Hasg;
    [|unfold makeSquad in H; by rewrite Hn, Hpi, Hfort, Hasg in H].
  destruct (decide (epa_squad_id asg ≠ -1)) as [Hbound|Hfree];
    [unfold makeSquad in H; rewrite Hn, Hpi, Hfort, Hasg in H;
     by rewrite decide_True in H|].
  destruct (list_find (λ p, ep_id p = epa_position_id asg)
              (he_positions_own fort)) as [[pj pos]|] eqn:Hpos;
    [|unfold makeSquad in H; rewrite Hn, Hpi, Hfort, Hasg in H;
      rewrite decide_False in H by done; by rewrite Hpos in H].
  set (r := {| res_next_id := next_id; res_plotinfo := pi; res_fort_index := fi;
               res_fort := fort; res_assignment_index := ai;
               res_assignment := asg; res_position := pos |}).
  assert (resolves assignment_id st r) as Hr.
  { unfold resolves. simpl. split_and!; try done.
    - by apply dec_stable.
    - by exists pj. }
  rewrite (makeSquad_resolved _ _ _ Hr) in H.
  destruct (res_schedule st r) as [f'|schedule]; [left; by simplify_eq|].
  destruct (world st) as [w|] eqn:Hw.
  - unfold commit in H. simpl in H. by rewrite Hw in H.
  - rewrite commit_no_world in H by done. right. simplify_eq.
    split_and!; [done..|]. by exists r.
Qed.

Lemma makeSquad_fault_state_witness :
  (∃ f, makeSquad 11 example_state_without_clock
        = Faulted f example_state_without_clock) ∧
  (∃ f st1, makeSquad 11 example_state_without_world = Faulted f st1 ∧
            squad_next_id st1 = Some 6 ∧
            entities st1 !! 1%nat
              = Some (set_he_squads [40; 5] (example_fort 3 (-1)))).
Proof.
  split.
  - destruct (makeSquad 11 example_state_without_clock)
      as [o st'|f st1] eqn:E; [vm_compute in E; discriminate E|].
    exists f.
    destruct (makeSquad_fault_state 11 example_state_without_clock f st1 E)
      as [-> | (Hw & _)]; [reflexivity|discriminate Hw].
  - destruct (makeSquad 11 example_state_without_world)
      as [o st'|f st1] eqn:E; [vm_compute in E; discriminate E|].
    exists f, st1. split; [reflexivity|].
    destruct (makeSquad_fault_state 11 example_state_without_world f st1 E)
      as [-> | (_ & _ & r & Hr & ->)].
    + vm_compute in E. discriminate E.
    + assert (r = example_resolution) as ->.
      { apply (resolves_unique 11 example_state_without_world); [exact Hr|].
        unfold resolves. simpl. split_and!; try reflexivity. by exists 1%nat. }
      split; reflexivity.
Defined.

(** A negative squad size and a routine that attaches training orders: the
    [resize] of the order's position bits throws, and the call stops before
    anything is written. *)
Lemma make_schedule_length_error st next_id squad_size routines acc rt :
  squad_size < 0 →
  rt ∈ routines → training_name (routine_name rt) →
  make_schedule st next_id squad_size routines acc = inl LengthError.
Proof.
  intros HN Hin Hname. revert acc.
  induction routines as [|r rest IH]; intros acc; [by apply elem_of_nil in Hin|].
  simpl. destruct (decide (training_name (routine_name r))) as [Hr|Hr].
  - assert (fill_asched st next_id squad_size (routine_name r)
              (allocate_asched squad_size) = inl LengthError) as ->; [|done].
    unfold fill_asched.
    destruct Hr as [-> | ->].
    + rewrite decide_False, decide_True by done. rewrite staggered_indices.
      destruct (staggered_months_cons next_id) as (i & rest' & ->).
      simpl. unfold train_month, insert_training_order.
      by rewrite decide_True.
    + rewrite decide_False, decide_False, decide_True by done.
      simpl. unfold train_month, insert_training_order.
      by rewrite decide_True.
  - destruct (fill_asched_other st next_id squad_size (routine_name r)
                (allocate_asched squad_size) Hr) as (b & ->).
    simpl. apply IH. apply elem_of_cons in Hin as [->|Hin]; done.
Qed.

Theorem makeSquad_length_error assignment_id st r rt :
  resolves assignment_id st r →
  res_squad_size r < 0 →
  rt ∈ alerts_routines (res_plotinfo r) →
  training_name (routine_name rt) →
  makeSquad assignment_id st = Faulted LengthError st.
Proof.
  intros Hr HN Hin Hname. rewrite (makeSquad_resolved _ _ _ Hr).
  unfold res_schedule.
  by rewrite (make_schedule_length_error _ _ _ _ _ rt).
Qed.

Lemma makeSquad_length_error_witness :
  makeSquad 11 (example_state 5 (-1) example_routines)
  = Faulted LengthError (example_state 5 (-1) example_routines).
Proof.
  apply (makeSquad_length_error 11 (example_state 5 (-1) example_routines)
           {| res_next_id := 5;
              res_plotinfo := {| group_id := 7; alerts_routines := example_routines |};
              res_fort_index := 1; res_fort := example_fort (-1) (-1);
              res_assignment_index := 1;
              res_assignment :=
                {| epa_id := 11; epa_position_id := 3; epa_squad_id := -1 |};
              res_position := {| ep_id := 3; ep_squad_size := -1 |} |}
           {| routine_name := "Staggered training" |}).
  - unfold resolves. simpl. split_and!; try reflexivity. by exists 1%nat.
  - unfold res_squad_size. simpl. lia.
  - apply list_elem_of_In. simpl. right. left. reflexivity.
  - by left.
Defined.

Lemma makeSquad_returns_witness :
  ∃ s st', makeSquad 11 (example_state 5 3 example_routines) = Returned (Some s) st'.
Proof.
  apply (makeSquad_returns 11 (example_state 5 3 example_routines)
           example_resolution 250 1200
           {| squads_all := [example_squad 40 "" []] |}).
  - unfold resolves. simpl. split_and!; try reflexivity. by exists 1%nat.
  - unfold res_squad_size. simpl. lia.
  - reflexivity.
  - reflexivity.
  - reflexivity.
Defined.

Lemma makeSquad_None_unchanged_witness :
  ∃ st', makeSquad 99 (example_state 5 3 example_routines) = Returned None st' ∧
         st' = example_state 5 3 example_routines.
Proof.
  destruct (makeSquad 99 (example_state 5 3 example_routines))
    as [[s|] st'|f st1] eqn:E; [vm_compute in E; discriminate E| |
                                vm_compute in E; discriminate E].
  exists st'. split; [reflexivity|].
  exact (makeSquad_None_unchanged 99 (example_state 5 3 example_routines) st' E).
Defined.

(** * Further properties of [updateRoomAssignments] *)

(** ** The two vectors, case by case *)

Lemma filter_all {A : Type} (P : A → Prop) `{∀ x, Decision (P x)} (l : list A) :
  (∀ x, x ∈ l → P x) → filter P l = l.
Proof.
  induction l as [|x l IH]; intros Hall; [done|].
  rewrite filter_cons_True by (apply Hall; left).
  rewrite IH; [done|]. intros y Hy. apply Hall. by right.
Qed.

(** Writing a record that does not have the property looked for, at a place
    where the record did not have it either, changes no search. *)
Lemma list_find_alter_other {A : Type} (P : A → Prop) `{∀ x, Decision (P x)}
    (f : A → A) (l : list A) i x :
  l !! i = Some x → ¬ P x → ¬ P (f x) →
  list_find P (alter f i l) = list_find P l.
Proof.
  revert i. induction l as [|y l IH]; intros i Hi Hx Hfx; [done|].
  destruct i as [|i]; simpl in Hi.
  - simplify_eq. change (alter f 0%nat (x :: l)) with (f x :: l).
    simpl. by rewrite !decide_False by done.
  - change (alter f (S i) (y :: l)) with (y :: alter f i l).
    simpl. by rewrite (IH i).
Qed.

(** All-zero flags and no record for the building: the squad's vector is
    left as it is. *)
Lemma rooms_sync_avoided alg civzone_id rooms :
  find_room civzone_id rooms = None →
  rooms_sync alg civzone_id 0 rooms = rooms.
Proof.
  intros Hfind. unfold rooms_sync, ensure_room_from_squad. rewrite Hfind.
  rewrite bool_decide_eq_true_2 by done.
  rewrite (decide_False (P := 0 = 0 ∧ true = false)) by (intros [_ ?]; done).
  by rewrite (decide_False (P := true = false ∧ None = None))
    by (intros [? _]; done).
Qed.

(** The record that is pushed, where the sort puts it. *)
Lemma rooms_sync_created alg civzone_id flags rooms :
  flags ≠ 0 → find_room civzone_id rooms = None →
  ∃ j sorted,
    sorted ≡ₚ rooms ++ [ {| building_id := civzone_id; rooms_mode := 0 |} ] ∧
    list_find (λ room, building_id room = civzone_id) sorted
      = Some (j, {| building_id := civzone_id; rooms_mode := 0 |}) ∧
    rooms_sync alg civzone_id flags rooms = alter (set_rooms_mode flags) j sorted.
Proof.
  intros Hflags Hfind. unfold rooms_sync, ensure_room_from_squad. rewrite Hfind.
  rewrite bool_decide_eq_false_2 by (intros [? _]; done).
  rewrite (decide_False (P := flags = 0 ∧ false = false))
    by (intros [? _]; done).
  rewrite (decide_True (P := false = false ∧ None = None)) by done. simpl.
  set (fresh := {| building_id := civzone_id; rooms_mode := 0 |}).
  set (rooms' := std_sort alg T_rooms building_id (rooms ++ [fresh])).
  pose proof (std_sort_permutation alg T_rooms building_id (rooms ++ [fresh]))
    as Hperm. fold rooms' in Hperm.
  destruct (list_find_key_fresh building_id civzone_id fresh rooms rooms')
    as [j Hj]; [done | | done |].
  { unfold find_room in Hfind. by apply fmap_None in Hfind. }
  exists j, rooms'. split_and!; [done..|].
  unfold find_room. by rewrite Hj.
Qed.

Lemma info_sync_created alg squad_id flags info :
  find_room_info squad_id info = None →
  ∃ j sorted,
    sorted ≡ₚ info ++ [ {| sri_squad_id := squad_id; sri_mode := 0 |} ] ∧
    list_find (λ room, sri_squad_id room = squad_id) sorted
      = Some (j, {| sri_squad_id := squad_id; sri_mode := 0 |}) ∧
    info_sync alg squad_id flags info = alter (set_sri_mode flags) j sorted.
Proof.
  intros Hfind. unfold info_sync, ensure_room_from_building. rewrite Hfind.
  rewrite decide_True by done. simpl.
  set (fresh := {| sri_squad_id := squad_id; sri_mode := 0 |}).
  set (info' := std_sort alg T_squad_room_info sri_squad_id (info ++ [fresh])).
  pose proof (std_sort_permutation alg T_squad_room_info sri_squad_id
                (info ++ [fresh])) as Hperm. fold info' in Hperm.
  destruct (list_find_key_fresh sri_squad_id squad_id fresh info info')
    as [j Hj]; [done | | done |].
  { unfold find_room_info in Hfind. by apply fmap_None in Hfind. }
  exists j, info'. split_and!; [done..|].
  unfold find_room_info. by rewrite Hj.
Qed.

(** Where the record of the pair is after the call. *)
Lemma find_room_alter civzone_id flags rooms i room :
  list_find (λ room, building_id room = civzone_id) rooms = Some (i, room) →
  find_room civzone_id (alter (set_rooms_mode flags) i rooms) = Some i.
Proof.
  intros Hfind. unfold find_room.
  by rewrite (list_find_key_alter building_id set_rooms_mode (λ _ _, eq_refl)
                civzone_id flags i room rooms Hfind).
Qed.

Lemma find_room_info_alter squad_id flags info i room :
  list_find (λ room, sri_squad_id room = squad_id) info = Some (i, room) →
  find_room_info squad_id (alter (set_sri_mode flags) i info) = Some i.
Proof.
  intros Hfind. unfold find_room_info.
  by rewrite (list_find_key_alter sri_squad_id set_sri_mode (λ _ _, eq_refl)
                squad_id flags i room info Hfind).
Qed.

Lemma find_room_filter civzone_id rooms :
  find_room civzone_id (filter (λ room, building_id room ≠ civzone_id) rooms) = None.
Proof. apply find_room_None. by intros room [? _]%list_elem_of_filter. Qed.

Lemma alter_set_rooms_mode_twice flags i (rooms : list T_rooms) :
  alter (set_rooms_mode flags) i (alter (set_rooms_mode flags) i rooms)
  = alter (set_rooms_mode flags) i rooms.
Proof. rewrite list_alter_alter_eq. by apply list_alter_ext. Qed.

Lemma alter_set_sri_mode_twice flags flags' i (info : list T_squad_room_info) :
  alter (set_sri_mode flags') i (alter (set_sri_mode flags) i info)
  = alter (set_sri_mode flags') i info.
Proof. rewrite list_alter_alter_eq. by apply list_alter_ext. Qed.

(** A second pass over either vector with the same flags changes nothing. *)
Lemma rooms_sync_idempotent alg civzone_id flags rooms :
  rooms_sync alg civzone_id flags (rooms_sync alg civzone_id flags rooms)
  = rooms_sync alg civzone_id flags rooms.
Proof.
  destruct (decide (flags = 0)) as [->|Hflags];
    destruct (find_room civzone_id rooms) as [i|] eqn:Hfind.
  - rewrite (rooms_sync_revoke alg civzone_id rooms i) by done.
    apply rooms_sync_avoided, find_room_filter.
  - by rewrite !(rooms_sync_avoided alg civzone_id rooms) by done.
  - rewrite (rooms_sync_present alg civzone_id flags rooms i) by done.
    apply find_room_Some in Hfind as (room & Hfind & _).
    rewrite (rooms_sync_present _ _ _ _ i)
      by eauto using find_room_alter.
    apply alter_set_rooms_mode_twice.
  - destruct (rooms_sync_created alg civzone_id flags rooms Hflags Hfind)
      as (j & sorted & _ & Hj & ->).
    rewrite (rooms_sync_present _ _ _ _ j) by eauto using find_room_alter.
    apply alter_set_rooms_mode_twice.
Qed.

Lemma info_sync_idempotent alg squad_id flags info :
  info_sync alg squad_id flags (info_sync alg squad_id flags info)
  = info_sync alg squad_id flags info.
Proof.
  destruct (find_room_info squad_id info) as [i|] eqn:Hfind.
  - rewrite (info_sync_present alg squad_id flags info i) by done.
    apply find_room_info_Some in Hfind as (room & Hfind & _).
    rewrite (info_sync_present _ _ _ _ i) by eauto using find_room_info_alter.
    apply alter_set_sri_mode_twice.
  - destruct (info_sync_created alg squad_id flags info Hfind)
      as (j & sorted & _ & Hj & ->).
    rewrite (info_sync_present _ _ _ _ j) by eauto using find_room_info_alter.
    apply alter_set_sri_mode_twice.
Qed.

(** After any pass the zone has a record for the squad. *)
Lemma info_sync_found alg squad_id flags info :
  ∃ j, find_room_info squad_id (info_sync alg squad_id flags info) = Some j.
Proof.
  destruct (find_room_info squad_id info) as [i|] eqn:Hfind.
  - rewrite (info_sync_present alg squad_id flags info i) by done.
    apply find_room_info_Some in Hfind as (room & Hfind & _).
    eauto using find_room_info_alter.
  - destruct (info_sync_created alg squad_id flags info Hfind)
      as (j & sorted & _ & Hj & ->).
    eauto using find_room_info_alter.
Qed.

(** The records of other buildings in the squad's vector, and of other
    squads in the zone's, are the same after a pass, up to the order the
    sort gives them. *)
Lemma rooms_sync_others alg civzone_id flags rooms :
  filter (λ room, building_id room ≠ civzone_id) (rooms_sync alg civzone_id flags rooms)
  ≡ₚ filter (λ room, building_id room ≠ civzone_id) rooms.
Proof.
  destruct (decide (flags = 0)) as [->|Hflags];
    destruct (find_room civzone_id rooms) as [i|] eqn:Hfind.
  - rewrite (rooms_sync_revoke alg civzone_id rooms i) by done.
    by rewrite list_filter_filter_l.
  - by rewrite (rooms_sync_avoided alg civzone_id rooms) by done.
  - rewrite (rooms_sync_present alg civzone_id flags rooms i) by done.
    apply find_room_Some in Hfind as (room & _ & Hi & Hid).
    by rewrite (filter_key_alter building_id set_rooms_mode (λ _ _, eq_refl)
                  civzone_id flags i room).
  - destruct (rooms_sync_absent alg civzone_id flags rooms Hflags Hfind)
      as [Hperm _].
    rewrite Hperm, filter_app, filter_cons_False by (by intros ?).
    by rewrite filter_nil, app_nil_r.
Qed.

Lemma info_sync_others alg squad_id flags info :
  filter (λ room, sri_squad_id room ≠ squad_id) (info_sync alg squad_id flags info)
  ≡ₚ filter (λ room, sri_squad_id room ≠ squad_id) info.
Proof.
  destruct (find_room_info squad_id info) as [i|] eqn:Hfind.
  - rewrite (info_sync_present alg squad_id flags info i) by done.
    apply find_room_info_Some in Hfind as (room & _ & Hi & Hid).
    by rewrite (filter_key_alter sri_squad_id set_sri_mode (λ _ _, eq_refl)
                  squad_id flags i room).
  - destruct (info_sync_absent alg squad_id flags info Hfind) as [Hperm _].
    rewrite Hperm, filter_app, filter_cons_False by (by intros ?).
    by rewrite filter_nil, app_nil_r.
Qed.

(** ** The call as a whole *)

Lemma set_sq_rooms_same squad : set_sq_rooms (sq_rooms squad) squad = squad.
Proof. by destruct squad. Qed.

Lemma store_store st si bi zone_id rooms1 rooms2 info1 info2 :
  store_zone_info bi zone_id info2
    (store_squad_rooms si rooms2
       (store_zone_info bi zone_id info1 (store_squad_rooms si rooms1 st)))
  = store_zone_info bi zone_id info2 (store_squad_rooms si rooms2 st).
Proof.
  unfold store_zone_info, store_squad_rooms, set_buildings, set_world. simpl.
  destruct (world st) as [w|] eqn:Hw; simpl; rewrite ?Hw; simpl.
  - rewrite list_insert_insert_eq. do 3 f_equal.
    rewrite list_alter_alter_eq. by apply list_alter_ext.
  - by rewrite list_insert_insert_eq.
Qed.

(** The same call made twice in a row does what one call does: for every
    squad id, building id, flags and state. *)
Theorem updateRoomAssignments_idempotent alg squad_id civzone_id flags st :
  updateRoomAssignments alg squad_id civzone_id flags
    (updateRoomAssignments alg squad_id civzone_id flags st)
  = updateRoomAssignments alg squad_id civzone_id flags st.
Proof.
  destruct (squad_find squad_id st) as [[si squad]|] eqn:Hsquad;
    [|unfold updateRoomAssignments at 2; rewrite Hsquad;
      unfold updateRoomAssignments; by rewrite Hsquad].
  destruct (strict_virtual_cast_civzonest (building_find civzone_id st))
    as [[[bi zone_id] info]|] eqn:Hzone;
    [|unfold updateRoomAssignments at 2; rewrite Hsquad, Hzone;
      unfold updateRoomAssignments; by rewrite Hsquad, Hzone].
  rewrite (updateRoomAssignments_found _ _ _ _ _ _ _ _ _ _ Hsquad Hzone).
  case_decide as Hearly.
  { rewrite (updateRoomAssignments_found _ _ _ _ _ _ _ _ _ _ Hsquad Hzone).
    by rewrite decide_True. }
  set (rooms' := rooms_sync alg civzone_id flags (sq_rooms squad)).
  set (info' := info_sync alg squad_id flags info).
  rewrite (updateRoomAssignments_found alg squad_id civzone_id flags _
             si (set_sq_rooms rooms' squad) bi zone_id info')
    by (by apply squad_find_store || by eapply zone_find_store).
  destruct (info_sync_found alg squad_id flags info) as [j Hj]. fold info' in Hj.
  rewrite decide_False by (rewrite Hj; intros (_ & _ & ?); done).
  simpl. subst rooms' info'.
  by rewrite rooms_sync_idempotent, info_sync_idempotent, store_store.
Qed.

(** Whatever the call does, it does to the records of the pair: for the
    squad and the zone it resolves, the squad keeps every field but its
    rooms, and the records of other buildings in the squad's vector and of
    other squads in the zone's are the same afterwards, up to the order in
    the vector. *)
Theorem updateRoomAssignments_other_records alg squad_id civzone_id flags st
    si squad bi zone_id info :
  squad_find squad_id st = Some (si, squad) →
  strict_virtual_cast_civzonest (building_find civzone_id st)
    = Some (bi, zone_id, info) →
  let st' := updateRoomAssignments alg squad_id civzone_id flags st in
  ∃ rooms' info',
    squad_find squad_id st' = Some (si, set_sq_rooms rooms' squad) ∧
    strict_virtual_cast_civzonest (building_find civzone_id st')
      = Some (bi, zone_id, info') ∧
    filter (λ room, building_id room ≠ civzone_id) rooms'
      ≡ₚ filter (λ room, building_id room ≠ civzone_id) (sq_rooms squad) ∧
    filter (λ room, sri_squad_id room ≠ squad_id) info'
      ≡ₚ filter (λ room, sri_squad_id room ≠ squad_id) info.
Proof.
  intros Hsquad Hzone st'. subst st'.
  rewrite (updateRoomAssignments_found _ _ _ _ _ _ _ _ _ _ Hsquad Hzone).
  case_decide as Hearly.
  - exists (sq_rooms squad), info. by rewrite set_sq_rooms_same.
  - exists (rooms_sync alg civzone_id flags (sq_rooms squad)),
           (info_sync alg squad_id flags info).
    split; [by apply squad_find_store|].
    split; [by eapply zone_find_store|].
    split; [apply rooms_sync_others | apply info_sync_others].
Qed.

Lemma updateRoomAssignments_other_records_witness :
  ∃ rooms' info',
    squad_find 42 (updateRoomAssignments merge_sort_algorithm 42 4 0 example_registry)
      = Some (2%nat,
              set_sq_rooms rooms'
                (example_squad 42 ""
                   [ {| building_id := 7; rooms_mode := 1 |};
                     {| building_id := 4; rooms_mode := 1 |} ])) ∧
    strict_virtual_cast_civzonest
      (building_find 4
         (updateRoomAssignments merge_sort_algorithm 42 4 0 example_registry))
      = Some (0%nat, 4, info') ∧
    filter (λ room, building_id room ≠ 4) rooms'
      ≡ₚ [ {| building_id := 7; rooms_mode := 1 |} ] ∧
    filter (λ room, sri_squad_id room ≠ 42) info'
      ≡ₚ [ {| sri_squad_id := 41; sri_mode := 1 |} ].
Proof.
  exact (updateRoomAssignments_other_records merge_sort_algorithm 42 4 0
           example_registry 2%nat
           (example_squad 42 ""
              [ {| building_id := 7; rooms_mode := 1 |};
                {| building_id := 4; rooms_mode := 1 |} ])
           0%nat 4
           [ {| sri_squad_id := 41; sri_mode := 1 |};
             {| sri_squad_id := 42; sri_mode := 1 |} ]
           eq_refl eq_refl).
Defined.

(** The call writes the rooms of one squad and the room info of one zone:
    the counter, the settlement, the clock and the entities are the same
    after it, and so is what every other squad id and every other building
    id resolves to. *)
Theorem updateRoomAssignments_frame alg squad_id civzone_id flags st :
  let st' := updateRoomAssignments alg squad_id civzone_id flags st in
  squad_next_id st' = squad_next_id st ∧
  plotinfo st' = plotinfo st ∧
  cur_year st' = cur_year st ∧ cur_year_tick st' = cur_year_tick st ∧
  entities st' = entities st ∧
  (∀ id, id ≠ squad_id → squad_find id st' = squad_find id st) ∧
  (∀ id, id ≠ civzone_id → building_find id st' = building_find id st).
Proof.
  intros st'. subst st'.
  destruct (squad_find squad_id st) as [[si squad]|] eqn:Hsquad;
    [|unfold updateRoomAssignments; by rewrite Hsquad].
  destruct (strict_virtual_cast_civzonest (building_find civzone_id st))
    as [[[bi zone_id] info]|] eqn:Hzone;
    [|unfold updateRoomAssignments; by rewrite Hsquad, Hzone].
  rewrite (updateRoomAssignments_found _ _ _ _ _ _ _ _ _ _ Hsquad Hzone).
  case_decide as Hearly; [done|].
  apply squad_find_Some in Hsquad as (w & Hw & Hsi & Hid).
  unfold strict_virtual_cast_civzonest, building_find in Hzone.
  destruct (list_find _ (buildings st)) as [[bi' [id' info0|id']]|] eqn:Hb;
    simplify_eq.
  apply list_find_Some in Hb as (Hbi & Hbid & _). simpl in Hbid.
  unfold store_zone_info, store_squad_rooms, squad_find, building_find.
  rewrite Hw. simpl. split_and!; try done.
  - intros id Hne.
    apply (list_find_alter_other _ _ _ _ _ Hsi); simpl; congruence.
  - intros id Hne. rewrite list_insert_alter.
    apply (list_find_alter_other _ _ _ _ _ Hbi); simpl; congruence.
Qed.

Lemma store_squad_rooms_same squad_id st si squad :
  squad_find squad_id st = Some (si, squad) →
  store_squad_rooms si (sq_rooms squad) st = st.
Proof.
  intros (w & Hw & Hsi & _)%squad_find_Some.
  unfold store_squad_rooms, set_world. rewrite Hw.
  destruct st as [n pi y t w' es bs], w as [l]. simpl in *. simplify_eq.
  do 3 f_equal.
  rewrite <- list_insert_id with (1 := Hsi) at 2.
  rewrite list_insert_alter. apply list_alter_ext; [|done].
  intros x Hx. simplify_eq. apply set_sq_rooms_same.
Qed.

(** All-zero flags when only the zone has a record of the pair: the squad,
    and the whole registry with it, is left as it is, no room record being
    made for it; the zone's record gets flags 0. *)
Theorem updateRoomAssignments_revoke_zone_only alg squad_id civzone_id st
    si squad bi zone_id info j :
  squad_find squad_id st = Some (si, squad) →
  strict_virtual_cast_civzonest (building_find civzone_id st)
    = Some (bi, zone_id, info) →
  (∀ room, room ∈ sq_rooms squad → building_id room ≠ civzone_id) →
  find_room_info squad_id info = Some j →
  let st' := updateRoomAssignments alg squad_id civzone_id 0 st in
  world st' = world st ∧
  strict_virtual_cast_civzonest (building_find civzone_id st')
    = Some (bi, zone_id, alter (set_sri_mode 0) j info) ∧
  ∃ room, alter (set_sri_mode 0) j info !! j = Some room ∧
          sri_squad_id room = squad_id ∧ sri_mode room = 0.
Proof.
  intros Hsquad Hzone Hnone%find_room_None Hj st'. subst st'.
  rewrite (updateRoomAssignments_found _ _ _ _ _ _ _ _ _ _ Hsquad Hzone).
  rewrite decide_False by (rewrite Hj; intros (_ & _ & ?); done).
  rewrite (rooms_sync_avoided alg civzone_id (sq_rooms squad)) by done.
  rewrite (info_sync_present alg squad_id 0 info j) by done.
  split_and!.
  - by rewrite (store_squad_rooms_same squad_id).
  - by eapply zone_find_store.
  - apply find_room_info_Some in Hj as (room & _ & Hroom & Hid).
    exists (set_sri_mode 0 room). by rewrite list_lookup_alter_eq, Hroom.
Qed.

Lemma updateRoomAssignments_revoke_zone_only_witness :
  world (updateRoomAssignments merge_sort_algorithm 40 7 0 example_registry)
    = world example_registry ∧
  strict_virtual_cast_civzonest
    (building_find 7
       (updateRoomAssignments merge_sort_algorithm 40 7 0 example_registry))
    = Some (3%nat, 7, [ {| sri_squad_id := 40; sri_mode := 0 |} ]).
Proof.
  destruct (updateRoomAssignments_revoke_zone_only merge_sort_algorithm 40 7
              example_registry 0%nat (example_squad 40 "" []) 3%nat 7
              [ {| sri_squad_id := 40; sri_mode := 1 |} ] 0%nat)
    as (Hw & Hz & _).
  - reflexivity.
  - reflexivity.
  - intros room Hroom. apply list_elem_of_In in Hroom. destruct Hroom.
  - reflexivity.
  - split; [exact Hw|exact Hz].
Defined.

(** Granting access to a pair that had no record and then revoking it does
    not bring the state back: the squad's vector has its old records again,
    in the order the sort gave them, and the zone's vector has one record
    more than before, for the squad, with flags 0. *)
Theorem updateRoomAssignments_grant_then_revoke alg squad_id civzone_id flags st
    si squad bi zone_id info :
  flags ≠ 0 →
  squad_find squad_id st = Some (si, squad) →
  strict_virtual_cast_civzonest (building_find civzone_id st)
    = Some (bi, zone_id, info) →
  (∀ room, room ∈ sq_rooms squad → building_id room ≠ civzone_id) →
  (∀ room, room ∈ info → sri_squad_id room ≠ squad_id) →
  let st2 :=
    updateRoomAssignments alg squad_id civzone_id 0
      (updateRoomAssignments alg squad_id civzone_id flags st) in
  ∃ rooms2 info2,
    squad_find squad_id st2 = Some (si, set_sq_rooms rooms2 squad) ∧
    rooms2 ≡ₚ sq_rooms squad ∧
    strict_virtual_cast_civzonest (building_find civzone_id st2)
      = Some (bi, zone_id, info2) ∧
    info2 ≡ₚ info ++ [ {| sri_squad_id := squad_id; sri_mode := 0 |} ].
Proof.
  intros Hflags Hsquad Hzone Hrooms Hinfo st2. subst st2.
  pose proof Hrooms as Hfind%find_room_None.
  pose proof Hinfo as Hfind'%find_room_info_None.
  rewrite (updateRoomAssignments_found alg squad_id civzone_id flags _ _ _ _ _ _
             Hsquad Hzone).
  rewrite decide_False by (intros [? _]; done).
  destruct (rooms_sync_created alg civzone_id flags _ Hflags Hfind)
    as (j & sorted & Hperm & Hj & Hrooms1).
  destruct (info_sync_created alg squad_id flags _ Hfind')
    as (j' & sorted' & Hperm' & Hj' & Hinfo1).
  set (rooms1 := rooms_sync alg civzone_id flags (sq_rooms squad)) in *.
  set (info1 := info_sync alg squad_id flags info) in *.
  rewrite (updateRoomAssignments_found alg squad_id civzone_id 0 _
             si (set_sq_rooms rooms1 squad) bi zone_id info1)
    by (by apply squad_find_store || by eapply zone_find_store).
  assert (find_room civzone_id rooms1 = Some j) as Hfind1
    by (rewrite Hrooms1; eauto using find_room_alter).
  assert (find_room_info squad_id info1 = Some j') as Hfind1'
    by (rewrite Hinfo1; eauto using find_room_info_alter).
  cbn [sq_rooms set_sq_rooms].
  rewrite decide_False by (rewrite Hfind1; intros (_ & ? & _); done).
  rewrite store_store.
  exists (rooms_sync alg civzone_id 0 rooms1), (info_sync alg squad_id 0 info1).
  split; [by apply squad_find_store|].
  split.
  { rewrite (rooms_sync_revoke alg civzone_id rooms1 j) by done.
    subst rooms1. rewrite rooms_sync_others. by rewrite filter_all. }
  split; [by eapply zone_find_store|].
  rewrite (info_sync_present alg squad_id 0 info1 j') by done.
  rewrite Hinfo1, alter_set_sri_mode_twice.
  apply list_find_Some in Hj' as (Hj' & _).
  apply (alter_fresh_Permutation set_sri_mode 0 j'
           {| sri_squad_id := squad_id; sri_mode := 0 |} info sorted'); done.
Qed.

Lemma updateRoomAssignments_grant_then_revoke_witness :
  ∃ rooms2 info2,
    squad_find 40
      (updateRoomAssignments merge_sort_algorithm 40 6 0
         (updateRoomAssignments merge_sort_algorithm 40 6 3 example_registry))
      = Some (0%nat, set_sq_rooms rooms2 (example_squad 40 "" [])) ∧
    rooms2 ≡ₚ [] ∧
    strict_virtual_cast_civzonest
      (building_find 6
         (updateRoomAssignments merge_sort_algorithm 40 6 0
            (updateRoomAssignments merge_sort_algorithm 40 6 3 example_registry)))
      = Some (2%nat, 6, info2) ∧
    info2 ≡ₚ [ {| sri_squad_id := 40; sri_mode := 0 |} ].
Proof.
  apply (updateRoomAssignments_grant_then_revoke merge_sort_algorithm 40 6 3
           example_registry 0%nat (example_squad 40 "" []) 2%nat 6 []).
  - lia.
  - reflexivity.
  - reflexivity.
  - intros room Hroom. apply list_elem_of_In in Hroom. destruct Hroom.
  - intros room Hroom. apply list_elem_of_In in Hroom. destruct Hroom.
Defined.

(** What the creation branches leave, with the sorted vector spelled out. *)
Lemma rooms_sync_created_sorted alg civzone_id flags rooms :
  flags ≠ 0 → find_room civzone_id rooms = None →
  ∃ j,
    list_find (λ room, building_id room = civzone_id)
      (std_sort alg T_rooms building_id
         (rooms ++ [ {| building_id := civzone_id; rooms_mode := 0 |} ]))
      = Some (j, {| building_id := civzone_id; rooms_mode := 0 |}) ∧
    rooms_sync alg civzone_id flags rooms
    = alter (set_rooms_mode flags) j
        (std_sort alg T_rooms building_id
           (rooms ++ [ {| building_id := civzone_id; rooms_mode := 0 |} ])).
Proof.
  intros Hflags Hfind. unfold rooms_sync, ensure_room_from_squad. rewrite Hfind.
  rewrite bool_decide_eq_false_2 by (intros [? _]; done).
  rewrite (decide_False (P := flags = 0 ∧ false = false))
    by (intros [? _]; done).
  rewrite (decide_True (P := false = false ∧ None = None)) by done. simpl.
  destruct (list_find_key_fresh building_id civzone_id
              {| building_id := civzone_id; rooms_mode := 0 |} rooms
              (std_sort alg T_rooms building_id
                 (rooms ++ [ {| building_id := civzone_id; rooms_mode := 0 |} ])))
    as [j Hj]; [done | | apply std_sort_permutation |].
  { unfold find_room in Hfind. by apply fmap_None in Hfind. }
  exists j. split; [done|]. unfold find_room. by rewrite Hj.
Qed.

Lemma info_sync_created_sorted alg squad_id flags info :
  find_room_info squad_id info = None →
  ∃ j,
    list_find (λ room, sri_squad_id room = squad_id)
      (std_sort alg T_squad_room_info sri_squad_id
         (info ++ [ {| sri_squad_id := squad_id; sri_mode := 0 |} ]))
      = Some (j, {| sri_squad_id := squad_id; sri_mode := 0 |}) ∧
    info_sync alg squad_id flags info
    = alter (set_sri_mode flags) j
        (std_sort alg T_squad_room_info sri_squad_id
           (info ++ [ {| sri_squad_id := squad_id; sri_mode := 0 |} ])).
Proof.
  intros Hfind. unfold info_sync, ensure_room_from_building. rewrite Hfind.
  rewrite decide_True by done. simpl.
  destruct (list_find_key_fresh sri_squad_id squad_id
              {| sri_squad_id := squad_id; sri_mode := 0 |} info
              (std_sort alg T_squad_room_info sri_squad_id
                 (info ++ [ {| sri_squad_id := squad_id; sri_mode := 0 |} ])))
    as [j Hj]; [done | | apply std_sort_permutation |].
  { unfold find_room_info in Hfind. by apply fmap_None in Hfind. }
  exists j. split; [done|]. unfold find_room_info. by rewrite Hj.
Qed.

Lemma rooms_sync_overwrite alg civzone_id flags1 flags2 rooms :
  flags1 ≠ 0 → flags2 ≠ 0 →
  rooms_sync alg civzone_id flags2 (rooms_sync alg civzone_id flags1 rooms)
  = rooms_sync alg civzone_id flags2 rooms.
Proof.
  intros H1 H2. destruct (find_room civzone_id rooms) as [i|] eqn:Hfind.
  - rewrite (rooms_sync_present alg civzone_id flags1 rooms i) by done.
    rewrite (rooms_sync_present alg civzone_id flags2 rooms i) by done.
    apply find_room_Some in Hfind as (room & Hfind & _).
    rewrite (rooms_sync_present _ _ _ _ i) by eauto using find_room_alter.
    rewrite list_alter_alter_eq. by apply list_alter_ext.
  - destruct (rooms_sync_created_sorted alg civzone_id flags1 rooms H1 Hfind)
      as (j & Hj & ->).
    destruct (rooms_sync_created_sorted alg civzone_id flags2 rooms H2 Hfind)
      as (j2 & Hj2 & ->).
    assert (j2 = j) as -> by congruence.
    rewrite (rooms_sync_present _ _ _ _ j) by eauto using find_room_alter.
    rewrite list_alter_alter_eq. by apply list_alter_ext.
Qed.

Lemma info_sync_overwrite alg squad_id flags1 flags2 info :
  info_sync alg squad_id flags2 (info_sync alg squad_id flags1 info)
  = info_sync alg squad_id flags2 info.
Proof.
  destruct (find_room_info squad_id info) as [i|] eqn:Hfind.
  - rewrite (info_sync_present alg squad_id flags1 info i) by done.
    rewrite (info_sync_present alg squad_id flags2 info i) by done.
    apply find_room_info_Some in Hfind as (room & Hfind & _).
    rewrite (info_sync_present _ _ _ _ i) by eauto using find_room_info_alter.
    apply alter_set_sri_mode_twice.
  - destruct (info_sync_created_sorted alg squad_id flags1 info Hfind)
      as (j & Hj & ->).
    destruct (info_sync_created_sorted alg squad_id flags2 info Hfind)
      as (j2 & Hj2 & ->).
    assert (j2 = j) as -> by congruence.
    rewrite (info_sync_present _ _ _ _ j) by eauto using find_room_info_alter.
    apply alter_set_sri_mode_twice.
Qed.

(** Of two grants in a row the second is the one that counts: with flags
    that are not all zero, the state after both calls is the state after
    the second alone. *)
Theorem updateRoomAssignments_overwrite alg squad_id civzone_id flags1 flags2 st :
  flags1 ≠ 0 → flags2 ≠ 0 →
  updateRoomAssignments alg squad_id civzone_id flags2
    (updateRoomAssignments alg squad_id civzone_id flags1 st)
  = updateRoomAssignments alg squad_id civzone_id flags2 st.
Proof.
  intros H1 H2.
  destruct (squad_find squad_id st) as [[si squad]|] eqn:Hsquad;
    [|unfold updateRoomAssignments at 2; rewrite Hsquad;
      unfold updateRoomAssignments; by rewrite Hsquad].
  destruct (strict_virtual_cast_civzonest (building_find civzone_id st))
    as [[[bi zone_id] info]|] eqn:Hzone;
    [|unfold updateRoomAssignments at 2; rewrite Hsquad, Hzone;
      unfold updateRoomAssignments; by rewrite Hsquad, Hzone].
  rewrite !(updateRoomAssignments_found _ _ _ _ st _ _ _ _ _ Hsquad Hzone).
  rewrite !decide_False by (intros [? _]; done).
  set (rooms' := rooms_sync alg civzone_id flags1 (sq_rooms squad)).
  set (info' := info_sync alg squad_id flags1 info).
  rewrite (updateRoomAssignments_found alg squad_id civzone_id flags2 _
             si (set_sq_rooms rooms' squad) bi zone_id info')
    by (by apply squad_find_store || by eapply zone_find_store).
  rewrite decide_False by (intros [? _]; done).
  simpl. subst rooms' info'.
  by rewrite rooms_sync_overwrite, info_sync_overwrite, store_store.
Qed.

Lemma updateRoomAssignments_overwrite_witness :
  updateRoomAssignments merge_sort_algorithm 42 4 5
    (updateRoomAssignments merge_sort_algorithm 42 4 3 example_registry)
  = updateRoomAssignments merge_sort_algorithm 42 4 5 example_registry.
Proof.
  apply (updateRoomAssignments_overwrite merge_sort_algorithm 42 4 3 5
           example_registry); lia.
Defined.

(** ** Sorted vectors stay sorted *)

Lemma key_le_transitive {A : Type} (key : A → Z) : Transitive (key_le key).
Proof. intros a b c. unfold key_le. lia. Qed.

Lemma StronglySorted_filter_key {A : Type} (key : A → Z) (P : A → Prop)
    `{∀ x, Decision (P x)} (l : list A) :
  StronglySorted (key_le key) l → StronglySorted (key_le key) (filter P l).
Proof.
  induction 1 as [|x l Hl IH Hx]; [constructor|].
  rewrite filter_cons. case_decide; [|done].
  constructor; [done|].
  apply Forall_forall. intros y [_ Hy]%list_elem_of_filter.
  by apply (proj1 (Forall_forall _ _) Hx).
Qed.

Lemma Sorted_filter_key {A : Type} (key : A → Z) (P : A → Prop)
    `{∀ x, Decision (P x)} (l : list A) :
  Sorted (key_le key) l → Sorted (key_le key) (filter P l).
Proof.
  intros Hsorted. apply StronglySorted_Sorted, StronglySorted_filter_key.
  apply Sorted.Sorted_StronglySorted; [|done].
  exact (key_le_transitive key).
Qed.

Lemma rooms_sync_sorted alg civzone_id flags rooms :
  Sorted (key_le building_id) rooms →
  Sorted (key_le building_id) (rooms_sync alg civzone_id flags rooms).
Proof.
  intros Hsorted.
  destruct (decide (flags = 0)) as [->|Hflags];
    destruct (find_room civzone_id rooms) as [i|] eqn:Hfind.
  - rewrite (rooms_sync_revoke alg civzone_id rooms i) by done.
    by apply Sorted_filter_key.
  - by rewrite (rooms_sync_avoided alg civzone_id rooms) by done.
  - rewrite (rooms_sync_present alg civzone_id flags rooms i) by done.
    by apply (Sorted_alter_key building_id set_rooms_mode (λ _ _, eq_refl)).
  - by apply rooms_sync_absent.
Qed.

Lemma info_sync_sorted alg squad_id flags info :
  Sorted (key_le sri_squad_id) info →
  Sorted (key_le sri_squad_id) (info_sync alg squad_id flags info).
Proof.
  intros Hsorted. destruct (find_room_info squad_id info) as [i|] eqn:Hfind.
  - rewrite (info_sync_present alg squad_id flags info i) by done.
    by apply (Sorted_alter_key sri_squad_id set_sri_mode (λ _ _, eq_refl)).
  - by apply info_sync_absent.
Qed.

(** The call keeps the two vectors sorted: if the squad's rooms are sorted
    by building id and the zone's room info by squad id before the call,
    they are after it, whatever the flags. *)
Theorem updateRoomAssignments_keeps_sorted alg squad_id civzone_id flags st
    si squad bi zone_id info :
  squad_find squad_id st = Some (si, squad) →
  strict_virtual_cast_civzonest (building_find civzone_id st)
    = Some (bi, zone_id, info) →
  Sorted (key_le building_id) (sq_rooms squad) →
  Sorted (key_le sri_squad_id) info →
  let st' := updateRoomAssignments alg squad_id civzone_id flags st in
  ∃ squad' info',
    squad_find squad_id st' = Some (si, squad') ∧
    strict_virtual_cast_civzonest (building_find civzone_id st')
      = Some (bi, zone_id, info') ∧
    Sorted (key_le building_id) (sq_rooms squad') ∧
    Sorted (key_le sri_squad_id) info'.
Proof.
  intros Hsquad Hzone Hrooms Hinfo st'. subst st'.
  rewrite (updateRoomAssignments_found _ _ _ _ _ _ _ _ _ _ Hsquad Hzone).
  case_decide as Hearly.
  - by exists squad, info.
  - exists (set_sq_rooms (rooms_sync alg civzone_id flags (sq_rooms squad)) squad),
           (info_sync alg squad_id flags info).
    split; [by apply squad_find_store|].
    split; [by eapply zone_find_store|].
    split; [by apply rooms_sync_sorted | by apply info_sync_sorted].
Qed.

Lemma updateRoomAssignments_keeps_sorted_witness :
  ∃ squad' info',
    squad_find 41 (updateRoomAssignments merge_sort_algorithm 41 4 0 example_registry)
      = Some (1%nat, squad') ∧
    strict_virtual_cast_civzonest
      (building_find 4
         (updateRoomAssignments merge_sort_algorithm 41 4 0 example_registry))
      = Some (0%nat, 4, info') ∧
    Sorted (key_le building_id) (sq_rooms squad') ∧
    Sorted (key_le sri_squad_id) info'.
Proof.
  apply (updateRoomAssignments_keeps_sorted merge_sort_algorithm 41 4 0
           example_registry 1%nat (example_squad 41 "Axe lords" []) 0%nat 4
           [ {| sri_squad_id := 41; sri_mode := 1 |};
             {| sri_squad_id := 42; sri_mode := 1 |} ]).
  - reflexivity.
  - reflexivity.
  - constructor.
  - repeat constructor. unfold key_le. simpl. lia.
Defined.

(** ** The erase loop *)

(** The loop of lines 288-296, with its step back after an erase, removes
    every record of the building, adjacent ones included, and keeps the
    other records, in their order. *)
Theorem erase_rooms_removes_all civzone_id rooms :
  erase_rooms civzone_id rooms
    = filter (λ room, building_id room ≠ civzone_id) rooms ∧
  (∀ room, room ∈ erase_rooms civzone_id rooms ↔
           room ∈ rooms ∧ building_id room ≠ civzone_id) ∧
  (length (erase_rooms civzone_id rooms) ≤ length rooms)%nat ∧
  ((∀ room, room ∈ rooms → building_id room ≠ civzone_id) →
     erase_rooms civzone_id rooms = rooms).
Proof.
  rewrite erase_rooms_filter. split_and!.
  - done.
  - intros room. rewrite list_elem_of_filter. tauto.
  - apply length_filter.
  - apply filter_all.
Qed.

Lemma erase_rooms_removes_all_witness :
  erase_rooms 3
    [ {| building_id := 3; rooms_mode := 1 |};
      {| building_id := 3; rooms_mode := 2 |};
      {| building_id := 4; rooms_mode := 1 |};
      {| building_id := 3; rooms_mode := 4 |};
      {| building_id := 1; rooms_mode := 1 |} ]
  = [ {| building_id := 4; rooms_mode := 1 |};
      {| building_id := 1; rooms_mode := 1 |} ].
Proof.
  rewrite (proj1 (erase_rooms_removes_all 3 _)). reflexivity.
Defined.

(** ** A grant followed by a search *)

Lemma rooms_sync_lookup alg civzone_id flags rooms :
  flags ≠ 0 →
  ∃ j room,
    find_room civzone_id (rooms_sync alg civzone_id flags rooms) = Some j ∧
    rooms_sync alg civzone_id flags rooms !! j = Some room ∧
    building_id room = civzone_id ∧ rooms_mode room = flags.
Proof.
  intros Hflags. destruct (find_room civzone_id rooms) as [i|] eqn:Hfind.
  - rewrite (rooms_sync_present alg civzone_id flags rooms i) by done.
    apply find_room_Some in Hfind as (room & Hfind & Hi & Hid).
    exists i, (set_rooms_mode flags room).
    split_and!; [by eapply find_room_alter | | done..].
    by rewrite list_lookup_alter_eq, Hi.
  - destruct (rooms_sync_created_sorted alg civzone_id flags rooms Hflags Hfind)
      as (j & Hj & ->).
    exists j, {| building_id := civzone_id; rooms_mode := flags |}.
    split_and!; [by eapply find_room_alter | | done..].
    apply list_find_Some in Hj as (Hj & _).
    by rewrite list_lookup_alter_eq, Hj.
Qed.

Lemma info_sync_lookup alg squad_id flags info :
  ∃ j room,
    find_room_info squad_id (info_sync alg squad_id flags info) = Some j ∧
    info_sync alg squad_id flags info !! j = Some room ∧
    sri_squad_id room = squad_id ∧ sri_mode room = flags.
Proof.
  destruct (find_room_info squad_id info) as [i|] eqn:Hfind.
  - rewrite (info_sync_present alg squad_id flags info i) by done.
    apply find_room_info_Some in Hfind as (room & Hfind & Hi & Hid).
    exists i, (set_sri_mode flags room).
    split_and!; [by eapply find_room_info_alter | | done..].
    by rewrite list_lookup_alter_eq, Hi.
  - destruct (info_sync_created_sorted alg squad_id flags info Hfind)
      as (j & Hj & ->).
    exists j, {| sri_squad_id := squad_id; sri_mode := flags |}.
    split_and!; [by eapply find_room_info_alter | | done..].
    apply list_find_Some in Hj as (Hj & _).
    by rewrite list_lookup_alter_eq, Hj.
Qed.

(** After a grant, the records the two search loops of the call come upon,
    the first one for the building in the squad's vector and the first one
    for the squad in the zone's, carry the flags given: also when a vector
    holds several records with the same key. *)
Theorem updateRoomAssignments_grant_lookup alg squad_id civzone_id flags st
    si squad bi zone_id info :
  flags ≠ 0 →
  squad_find squad_id st = Some (si, squad) →
  strict_virtual_cast_civzonest (building_find civzone_id st)
    = Some (bi, zone_id, info) →
  let st' := updateRoomAssignments alg squad_id civzone_id flags st in
  ∃ squad' info' j room j' room',
    squad_find squad_id st' = Some (si, squad') ∧
    strict_virtual_cast_civzonest (building_find civzone_id st')
      = Some (bi, zone_id, info') ∧
    find_room civzone_id (sq_rooms squad') = Some j ∧
    sq_rooms squad' !! j = Some room ∧ rooms_mode room = flags ∧
    find_room_info squad_id info' = Some j' ∧
    info' !! j' = Some room' ∧ sri_mode room' = flags.
Proof.
  intros Hflags Hsquad Hzone st'. subst st'.
  rewrite (updateRoomAssignments_found _ _ _ _ _ _ _ _ _ _ Hsquad Hzone).
  rewrite decide_False by (intros [? _]; done).
  destruct (rooms_sync_lookup alg civzone_id flags (sq_rooms squad) Hflags)
    as (j & room & Hj & Hroom & _ & Hmode).
  destruct (info_sync_lookup alg squad_id flags info)
    as (j' & room' & Hj' & Hroom' & _ & Hmode').
  exists (set_sq_rooms (rooms_sync alg civzone_id flags (sq_rooms squad)) squad),
         (info_sync alg squad_id flags info), j, room, j', room'.
  split; [by apply squad_find_store|].
  split; [by eapply zone_find_store|]. done.
Qed.

Lemma updateRoomAssignments_grant_lookup_witness :
  ∃ squad' info' j room j' room',
    squad_find 42 (updateRoomAssignments merge_sort_algorithm 42 4 6 example_registry)
      = Some (2%nat, squad') ∧
    strict_virtual_cast_civzonest
      (building_find 4
         (updateRoomAssignments merge_sort_algorithm 42 4 6 example_registry))
      = Some (0%nat, 4, info') ∧
    find_room 4 (sq_rooms squad') = Some j ∧
    sq_rooms squad' !! j = Some room ∧ rooms_mode room = 6 ∧
    find_room_info 42 info' = Some j' ∧
    info' !! j' = Some room' ∧ sri_mode room' = 6.
Proof.
  apply (updateRoomAssignments_grant_lookup merge_sort_algorithm 42 4 6
           example_registry 2%nat
           (example_squad 42 ""
              [ {| building_id := 7; rooms_mode := 1 |};
                {| building_id := 4; rooms_mode := 1 |} ])
           0%nat 4
           [ {| sri_squad_id := 41; sri_mode := 1 |};
             {| sri_squad_id := 42; sri_mode := 1 |} ]).
  - lia.
  - reflexivity.
  - reflexivity.
Defined.
